(** * Game Titles Extractor: the scan-and-report pipeline

    A shallow embedding of [gameTitleExtractor.py] (class
    [GameTitlesExtractor]) and the properties of its directory scan, its
    report writer and its top-level run.

    The Tk widgets are kept only as far as the program reads or writes
    them: the log pane is the list of messages appended to it, the
    progress bar is its numeric value, the two "open" buttons are one
    flag.  The platform (directory listing, existence test, file
    creation, clock) is a record of answers, [os_env]; files the program
    writes are recorded in the [disk] field of the state. *)

From Stdlib Require Import String Ascii List ZArith QArith Lia Bool.
From stdpp Require Import base gmap strings list fin_maps.

Import ListNotations.
Local Open Scope string_scope.
Local Open Scope list_scope.

(** ** Strings as Python uses them here *)

Module PyStr.

(** [s.endswith(suffix)]: some tail of [s] is [suffix]. *)
Fixpoint endswith (s suffix : string) : bool :=
  if String.eqb s suffix then true
  else match s with
       | EmptyString => false
       | String _ rest => endswith rest suffix
       end.

(** [s.startswith(prefix)] is Stdlib's [String.prefix prefix s]. *)
Definition startswith (s pre : string) : bool := String.prefix pre s.

(** Truth value of a string in a condition: non-empty. *)
Definition truthy (s : string) : bool :=
  match s with EmptyString => false | String _ _ => true end.

Definition newline : ascii := "010"%char.
Definition nl : string := String newline EmptyString.

(** A string without a line break. *)
Fixpoint single_line (s : string) : bool :=
  match s with
  | EmptyString => true
  | String c rest => negb (Ascii.eqb c newline) && single_line rest
  end.

(** The concatenation of newline-terminated lines. *)
Fixpoint unlines (ls : list string) : string :=
  match ls with
  | [] => EmptyString
  | l :: rest => l +:+ nl +:+ unlines rest
  end.

(** Reading a text back line by line (each line ends at a newline; a
    last line without one is still a line). *)
Fixpoint lines (s : string) : list string :=
  match s with
  | EmptyString => []
  | String c rest =>
      if Ascii.eqb c newline then EmptyString :: lines rest
      else match lines rest with
           | [] => [String c EmptyString]
           | l :: ls => String c l :: ls
           end
  end.

(** What a sequence of [file.write(chunk)] calls leaves in the file. *)
Fixpoint write_all (chunks : list string) : string :=
  match chunks with
  | [] => EmptyString
  | c :: rest => c +:+ write_all rest
  end.

End PyStr.

(** ** [os.path.join] (POSIX flavour, two arguments) *)

Definition os_path_join (a b : string) : string :=
  if PyStr.startswith b "/" then b
  else if negb (PyStr.truthy a) || PyStr.endswith a "/" then a +:+ b
  else a +:+ "/" +:+ b.

(** ** [datetime.now().strftime("%Y-%m-%d")] *)

Record datetime := { year : nat; month : nat; day : nat }.

Definition digit (n : nat) : ascii := ascii_of_nat (48 + n mod 10).

Definition pad2 (n : nat) : string :=
  String (digit (n / 10)) (String (digit n) EmptyString).

Definition pad4 (n : nat) : string :=
  String (digit (n / 1000)) (String (digit (n / 100)) (pad2 n)).

(** Year on four digits, month and day on two, as [%Y-%m-%d] prints
    them for the years 1000 to 9999. *)
Definition strftime_Ymd (d : datetime) : string :=
  pad4 (year d) +:+ "-" +:+ pad2 (month d) +:+ "-" +:+ pad2 (day d).

(** ** The platform *)

(** The exceptions the program tells apart. [OtherError e] is any other
    exception, [e] its text. *)
Inductive io_error :=
| FileNotFoundError
| PermissionError
| OtherError (e : string).

Inductive entry_kind := RegularFile | Directory.

(** A directory entry has a name and a type; [os.listdir] hands out the
    names only. *)
Record dirent := { d_name : string; d_kind : entry_kind }.

(** How the [with open(path, 'w')] block can fail. Either [open] raises
    and nothing is created; or [open] has created or truncated the file
    and a later [file.write], or the flush when the block is left,
    raises: the file then keeps what reached it, the first [kept]
    characters of the report. *)
Inductive write_failure :=
| OpenRaises (e : io_error)
| WriteRaises (kept : nat) (e : io_error).

(** The exception that leaves the block. *)
Definition raised (f : write_failure) : io_error :=
  match f with
  | OpenRaises e => e
  | WriteRaises _ e => e
  end.

Record os_env := {
  (** does the path exist (asked for non-empty paths only) *)
  env_exists : string -> bool;
  (** the entries of a directory, or the exception listing it raises *)
  env_scandir : string -> io_error + list dirent;
  (** [None]: the report is created and written in full; otherwise
      how the [with open(path, 'w')] block fails *)
  env_write : string -> option write_failure;
  (** the clock *)
  env_now : datetime
}.

(** [os.path.exists(path)]; the empty path never exists. *)
Definition os_path_exists (env : os_env) (path : string) : bool :=
  PyStr.truthy path && env_exists env path.

(** [os.listdir(path)] *)
Definition os_listdir (env : os_env) (path : string) : io_error + list string :=
  match env_scandir env path with
  | inl e => inl e
  | inr ents => inr (List.map d_name ents)
  end.

(** ** The log pane

    Every [self.log_message(f"...")] call of the program is one
    constructor, carrying the values the f-string interpolates. *)

Inductive log_event :=
| SelectedConsole (console_name : string)
| InfoNoConsole
| SelectedDirectory (console_name directory : string)
| InfoDirectoryWithoutConsole
| ErrDirectoryMissing (directory : string)
| ErrListPermission (directory : string)
| ErrListUnexpected (directory e : string)
| AttemptWrite (file_path : string)
| TitlesWritten (file_path : string)
| NoTitlesFound (directory : string)
| ErrWriteMissing (file_path : string)
| ErrWritePermission (file_path : string)
| ErrWriteUnexpected (file_path e : string)
| DebugStart (selected : option string)
| DebugEntries (entries : list (string * string))
| InfoStartWithoutSelection
| Processing (console_name directory : string)
| ProcessCompleted.

Section MessageText.

(** Python's [repr] of the registry dict, used by one debug message. *)
Variable repr_dict : list (string * string) -> string.

(** The text appended to the log pane (without its final newline). *)
Definition message_text (m : log_event) : string :=
  match m with
  | SelectedConsole c => "Selected console: " +:+ c
  | InfoNoConsole => "Info: No console selected."
  | SelectedDirectory c d =>
      "Selected directory for " +:+ c +:+ ": " +:+ d
  | InfoDirectoryWithoutConsole =>
      "Info: Attempt to select a directory without a selected console."
  | ErrDirectoryMissing d =>
      "Error: The directory '" +:+ d +:+ "' does not exist."
  | ErrListPermission d =>
      "Error: Permission denied to access the directory '" +:+ d +:+ "'."
  | ErrListUnexpected d e =>
      "An unexpected error occurred while accessing the directory '"
        +:+ d +:+ "': " +:+ e
  | AttemptWrite p => "Attempting to write file to: " +:+ p
  | TitlesWritten p => "Game titles have been written to " +:+ p
  | NoTitlesFound d => "No game titles found in the directory: " +:+ d
  | ErrWriteMissing p =>
      "Error: The file path '" +:+ p +:+ "' does not exist."
  | ErrWritePermission p =>
      "Error: Permission denied to write to the file '" +:+ p +:+ "'."
  | ErrWriteUnexpected p e =>
      "An unexpected error occurred while writing to the file '"
        +:+ p +:+ "': " +:+ e
  | DebugStart sel =>
      "Debug: Start process initiated. Selected console: "
        +:+ match sel with Some c => c | None => "None" end
  | DebugEntries entries => "Debug: Console entries: " +:+ repr_dict entries
  | InfoStartWithoutSelection =>
      "Info: Attempt to start process without selecting both console and directory."
  | Processing c d =>
      "Processing " +:+ c +:+ " with directory '" +:+ d +:+ "'..."
  | ProcessCompleted => "Process completed."
  end.

End MessageText.

(** The events that report a failure. *)
Definition is_error (m : log_event) : bool :=
  match m with
  | ErrDirectoryMissing _ | ErrListPermission _ | ErrListUnexpected _ _
  | ErrWriteMissing _ | ErrWritePermission _ | ErrWriteUnexpected _ _ => true
  | _ => false
  end.

Definition is_processing (m : log_event) : bool :=
  match m with Processing _ _ => true | _ => false end.

Definition is_completed (m : log_event) : bool :=
  match m with ProcessCompleted => true | _ => false end.

(** ** The registry: a Python dict, which iterates in insertion order *)

Module Dict.

Fixpoint get (k : string) (d : list (string * string)) : option string :=
  match d with
  | [] => None
  | (k', v) :: rest => if String.eqb k k' then Some v else get k rest
  end.

(** [d[k] = v]: overwrite in place, or append a new key at the end. *)
Fixpoint set (k v : string) (d : list (string * string))
  : list (string * string) :=
  match d with
  | [] => [(k, v)]
  | (k', v') :: rest =>
      if String.eqb k k' then (k', v) :: rest else (k', v') :: set k v rest
  end.

Definition keys (d : list (string * string)) : list string := List.map fst d.

End Dict.

(** ** The application object *)

Record extractor := {
  console_entries : list (string * string);
  selected_console : option string;
  output_files : gmap string string;
  select_button_text : string;
  directory_entry : string;
  open_buttons_enabled : bool;
  progress_value : Q;
  log_text : list log_event;
  dialogs : list (string * string);
  disk : gmap string string
}.

(** [__init__] *)
Definition init : extractor := {|
  console_entries := [];
  selected_console := None;
  output_files := ∅;
  select_button_text := "Select Console";
  directory_entry := "";
  open_buttons_enabled := false;
  progress_value := 0%Q;
  log_text := [];
  dialogs := [];
  disk := ∅
|}.

Definition popular_consoles : list string := [
  "Atari 2600";
  "Nintendo Entertainment System (NES)";
  "Super Nintendo Entertainment System (SNES)";
  "Nintendo 64";
  "Sega Genesis";
  "Sega Saturn";
  "Sega Dreamcast";
  "Sony PlayStation";
  "Sony PlayStation 2";
  "Nintendo GameCube";
  "Nintendo Wii";
  "Xbox";
  "Xbox 360";
  "Nintendo Game Boy (GBC)";
  "Nintendo Game Boy Advance";
  "Nintendo DS";
  "Nintendo 3DS";
  "PlayStation Portable (PSP)";
  "PlayStation Vita";
  "Atari Lynx";
  "Neo Geo Pocket";
  "TurboGrafx-16 Portable"
].

Definition set_console_entries (v : list (string * string)) (s : extractor) : extractor :=
  {| console_entries := v; selected_console := selected_console s;
     output_files := output_files s;
     select_button_text := select_button_text s;
     directory_entry := directory_entry s;
     open_buttons_enabled := open_buttons_enabled s;
     progress_value := progress_value s; log_text := log_text s;
     dialogs := dialogs s; disk := disk s |}.

Definition set_selected_console (v : option string) (s : extractor) : extractor :=
  {| console_entries := console_entries s; selected_console := v;
     output_files := output_files s;
     select_button_text := select_button_text s;
     directory_entry := directory_entry s;
     open_buttons_enabled := open_buttons_enabled s;
     progress_value := progress_value s; log_text := log_text s;
     dialogs := dialogs s; disk := disk s |}.

Definition set_output_files (v : gmap string string) (s : extractor) : extractor :=
  {| console_entries := console_entries s;
     selected_console := selected_console s; output_files := v;
     select_button_text := select_button_text s;
     directory_entry := directory_entry s;
     open_buttons_enabled := open_buttons_enabled s;
     progress_value := progress_value s; log_text := log_text s;
     dialogs := dialogs s; disk := disk s |}.

Definition set_select_button_text (v : string) (s : extractor) : extractor :=
  {| console_entries := console_entries s;
     selected_console := selected_console s;
     output_files := output_files s; select_button_text := v;
     directory_entry := directory_entry s;
     open_buttons_enabled := open_buttons_enabled s;
     progress_value := progress_value s; log_text := log_text s;
     dialogs := dialogs s; disk := disk s |}.

Definition set_directory_entry (v : string) (s : extractor) : extractor :=
  {| console_entries := console_entries s;
     selected_console := selected_console s;
     output_files := output_files s;
     select_button_text := select_button_text s; directory_entry := v;
     open_buttons_enabled := open_buttons_enabled s;
     progress_value := progress_value s; log_text := log_text s;
     dialogs := dialogs s; disk := disk s |}.

Definition set_open_buttons_enabled (v : bool) (s : extractor) : extractor :=
  {| console_entries := console_entries s;
     selected_console := selected_console s;
     output_files := output_files s;
     select_button_text := select_button_text s;
     directory_entry := directory_entry s; open_buttons_enabled := v;
     progress_value := progress_value s; log_text := log_text s;
     dialogs := dialogs s; disk := disk s |}.

Definition set_progress_value (v : Q) (s : extractor) : extractor :=
  {| console_entries := console_entries s;
     selected_console := selected_console s;
     output_files := output_files s;
     select_button_text := select_button_text s;
     directory_entry := directory_entry s;
     open_buttons_enabled := open_buttons_enabled s;
     progress_value := v; log_text := log_text s;
     dialogs := dialogs s; disk := disk s |}.

Definition set_disk (v : gmap string string) (s : extractor) : extractor :=
  {| console_entries := console_entries s;
     selected_console := selected_console s;
     output_files := output_files s;
     select_button_text := select_button_text s;
     directory_entry := directory_entry s;
     open_buttons_enabled := open_buttons_enabled s;
     progress_value := progress_value s; log_text := log_text s;
     dialogs := dialogs s; disk := v |}.

(** [self.log_message(message)] *)
Definition log_message (m : log_event) (s : extractor) : extractor :=
  {| console_entries := console_entries s;
     selected_console := selected_console s;
     output_files := output_files s;
     select_button_text := select_button_text s;
     directory_entry := directory_entry s;
     open_buttons_enabled := open_buttons_enabled s;
     progress_value := progress_value s; log_text := log_text s ++ [m];
     dialogs := dialogs s; disk := disk s |}.

(** [messagebox.showinfo(title, text)] *)
Definition showinfo (title text : string) (s : extractor) : extractor :=
  {| console_entries := console_entries s;
     selected_console := selected_console s;
     output_files := output_files s;
     select_button_text := select_button_text s;
     directory_entry := directory_entry s;
     open_buttons_enabled := open_buttons_enabled s;
     progress_value := progress_value s; log_text := log_text s;
     dialogs := dialogs s ++ [(title, text)]; disk := disk s |}.

(** ** The operations *)

(** [select_console]; [console_var] is the combobox's current value. *)
Definition select_console (console_var : string) (s : extractor) : extractor :=
  let console_name := console_var in
  if PyStr.truthy console_name then
    let s := set_selected_console (Some console_name) s in
    let s :=
      set_console_entries
        (Dict.set console_name
           (default "" (Dict.get console_name (console_entries s)))
           (console_entries s)) s in
    let s := set_select_button_text "Change Console" s in
    log_message (SelectedConsole console_name) s
  else
    let s := showinfo "Info" "You need to select a console first!" s in
    log_message InfoNoConsole s.

(** [browse_directory]; [chosen] is what the directory chooser returns
    (the empty string when it is cancelled). *)
Definition browse_directory (chosen : string) (s : extractor) : extractor :=
  let directory := chosen in
  if PyStr.truthy directory then
    let s := set_directory_entry directory s in
    match selected_console s with
    | Some console_name =>
        if PyStr.truthy console_name then
          let s :=
            set_console_entries
              (Dict.set console_name directory (console_entries s)) s in
          log_message (SelectedDirectory console_name directory) s
        else
          let s := showinfo "Info" "You need to select a console first!" s in
          log_message InfoDirectoryWithoutConsole s
    | None =>
        let s := showinfo "Info" "You need to select a console first!" s in
        log_message InfoDirectoryWithoutConsole s
    end
  else s.

(** The loop of [get_game_titles] over the listing: matching names are
    appended to [game_titles] one by one. *)
Fixpoint scan_loop (listing : list string) (game_titles : list string)
  : list string :=
  match listing with
  | [] => game_titles
  | file_name :: rest =>
      if PyStr.endswith file_name ".zip"
      then scan_loop rest (game_titles ++ [file_name])
      else scan_loop rest game_titles
  end.

(** [get_game_titles]: the listing either arrives whole or raises before
    the first iteration, so a handler always returns the empty list. *)
Definition get_game_titles (env : os_env) (directory : string) (s : extractor)
  : list string * extractor :=
  let game_titles := [] in
  match os_listdir env directory with
  | inr listing => (scan_loop listing game_titles, s)
  | inl FileNotFoundError =>
      (game_titles, log_message (ErrDirectoryMissing directory) s)
  | inl PermissionError =>
      (game_titles, log_message (ErrListPermission directory) s)
  | inl (OtherError e) =>
      (game_titles, log_message (ErrListUnexpected directory e) s)
  end.

Definition report_file_name (env : os_env) (console_name : string) : string :=
  console_name +:+ "_" +:+ strftime_Ymd (env_now env) +:+ ".txt".

Definition report_file_path (env : os_env) (directory console_name : string)
  : string :=
  os_path_join directory (report_file_name env console_name).

Definition warning_line (console_name : string) : string :=
  "Warning: We do not know if the list below is actual " +:+ console_name
    +:+ " game titles or not. Please double-check by yourself.".

(** The arguments of the successive [file.write] calls. *)
Definition report_chunks (console_name : string) (game_titles : list string)
  : list string :=
  ("Console: " +:+ console_name +:+ PyStr.nl)
    :: (warning_line console_name +:+ PyStr.nl +:+ PyStr.nl)
    :: List.map (fun title => title +:+ PyStr.nl) game_titles.

(** [write_game_titles] *)
Definition write_game_titles (env : os_env)
    (directory console_name : string) (game_titles : list string) (s : extractor)
  : extractor :=
  let date_str := strftime_Ymd (env_now env) in
  let file_name := console_name +:+ "_" +:+ date_str +:+ ".txt" in
  let file_path := os_path_join directory file_name in
  let s := log_message (AttemptWrite file_path) s in
  match game_titles with
  | _ :: _ =>
      let text := PyStr.write_all (report_chunks console_name game_titles) in
      match env_write env file_path with
      | None =>
          let s := set_disk (<[file_path := text]> (disk s)) s in
          let s := log_message (TitlesWritten file_path) s in
          let s :=
            set_output_files (<[console_name := file_path]> (output_files s))
              s in
          set_open_buttons_enabled true s
      | Some failure =>
          let s :=
            match failure with
            | OpenRaises _ => s
            | WriteRaises kept _ =>
                set_disk
                  (<[file_path := String.substring 0 kept text]> (disk s)) s
            end in
          match raised failure with
          | FileNotFoundError => log_message (ErrWriteMissing file_path) s
          | PermissionError => log_message (ErrWritePermission file_path) s
          | OtherError e => log_message (ErrWriteUnexpected file_path e) s
          end
      end
  | [] => log_message (NoTitlesFound directory) s
  end.

(** The guard of [start_process]:
    [not self.selected_console or
     not self.console_entries.get(self.selected_console)]. *)
Definition start_guard (s : extractor) : bool :=
  match selected_console s with
  | None => true
  | Some console_name =>
      negb (PyStr.truthy console_name)
      || match Dict.get console_name (console_entries s) with
         | None => true
         | Some directory => negb (PyStr.truthy directory)
         end
  end.

(** One round of the [for] loop of [start_process]. The bar's value is
    a double in the program; here it is held as the exact rational, so
    the statements about it below are kept to values and bounds on
    which the two agree. *)
Definition process_entry (env : os_env) (total_consoles : nat) (s : extractor)
    (item : string * string) : extractor :=
  let console_name := fst item in
  let directory := snd item in
  let s := log_message (Processing console_name directory) s in
  if negb (os_path_exists env directory) then
    log_message (ErrDirectoryMissing directory) s
  else
    let r := get_game_titles env directory s in
    let game_titles := fst r in
    let s := snd r in
    let s := write_game_titles env directory console_name game_titles s in
    set_progress_value
      (progress_value s + 100 / inject_Z (Z.of_nat total_consoles))%Q s.

(** The loop over [self.console_entries.items()]. *)
Definition process_entries (env : os_env) (total_consoles : nat)
    (items : list (string * string)) (s : extractor) : extractor :=
  fold_left (process_entry env total_consoles) items s.

(** [start_process] *)
Definition start_process (env : os_env) (s : extractor) : extractor :=
  let s := log_message (DebugStart (selected_console s)) s in
  let s := log_message (DebugEntries (console_entries s)) s in
  if start_guard s then
    let s :=
      showinfo "Info" "You need to select a console and a directory first!" s in
    log_message InfoStartWithoutSelection s
  else
    let s := set_progress_value 0%Q s in
    let total_consoles := length (console_entries s) in
    let s := process_entries env total_consoles (console_entries s) s in
    let s := log_message ProcessCompleted s in
    set_progress_value 100%Q s.

(** The state of the run after its first [k] registry entries. *)
Definition after_entries (env : os_env) (k : nat) (s : extractor) : extractor :=
  let s := log_message (DebugStart (selected_console s)) s in
  let s := log_message (DebugEntries (console_entries s)) s in
  let s := set_progress_value 0%Q s in
  process_entries env (length (console_entries s))
    (firstn k (console_entries s)) s.

(** ** A sample platform *)

Module Sample.

Definition nes_dir : list dirent := [
  {| d_name := "Mega Man.zip"; d_kind := RegularFile |};
  {| d_name := "readme.txt"; d_kind := RegularFile |}
].

Definition xbox_dir : list dirent := [
  {| d_name := "Halo.zip"; d_kind := RegularFile |};
  {| d_name := "foo.zip"; d_kind := Directory |};
  {| d_name := "SAVES.ZIP"; d_kind := RegularFile |};
  {| d_name := "notes"; d_kind := Directory |}
].

Definition readonly_dir : list dirent := [
  {| d_name := "Sonic.zip"; d_kind := RegularFile |}
].

(** Listable directories under [/roms], one of them read-only and one
    on a full device, where the report breaks off after its header
    line; one directory that may not be listed; and nothing else. *)
Definition env : os_env := {|
  env_exists := fun p =>
    String.eqb p "/roms/nes" || String.eqb p "/roms/xbox"
    || String.eqb p "/roms/empty" || String.eqb p "/roms/readonly"
    || String.eqb p "/roms/locked" || String.eqb p "/roms/full";
  env_scandir := fun p =>
    if String.eqb p "/roms/nes" then inr nes_dir
    else if String.eqb p "/roms/xbox" then inr xbox_dir
    else if String.eqb p "/roms/empty" then inr []
    else if String.eqb p "/roms/readonly" then inr readonly_dir
    else if String.eqb p "/roms/full" then inr readonly_dir
    else if String.eqb p "/roms/locked" then inl PermissionError
    else inl FileNotFoundError;
  env_write := fun p =>
    if PyStr.startswith p "/roms/readonly/"
    then Some (OpenRaises PermissionError)
    else if PyStr.startswith p "/roms/locked/"
    then Some (OpenRaises PermissionError)
    else if PyStr.startswith p "/roms/full/"
    then Some (WriteRaises 13
                 (OtherError "[Errno 28] No space left on device"))
    else if PyStr.startswith p "/roms/"
    then None
    else Some (OpenRaises FileNotFoundError);
  env_now := {| year := 2024; month := 5; day := 18 |}
|}.

(** A console selected without a directory, then a second one with
    a directory: what the two buttons of the window lead to. *)
Definition only_selected : extractor := select_console "Xbox" init.

Definition two_consoles : extractor :=
  browse_directory "/roms/xbox"
    (select_console "Xbox" (select_console "Atari 2600" init)).

(** The same with a directory that has been removed since it was
    chosen. *)
Definition removed_then_valid : extractor :=
  browse_directory "/roms/nes"
    (select_console "Nintendo Entertainment System (NES)"
       (browse_directory "/roms/gone" (select_console "Atari 2600" init))).

End Sample.

(** ** Vocabulary of the statements *)

Definition is_digit (c : ascii) : bool :=
  ((48 <=? nat_of_ascii c)%nat && (nat_of_ascii c <=? 57)%nat)%bool.

Definition is_iso_date (s : string) : bool :=
  match s with
  | String y1 (String y2 (String y3 (String y4 (String h1
      (String m1 (String m2 (String h2 (String d1 (String d2
         EmptyString))))))))) =>
      forallb is_digit [y1; y2; y3; y4; m1; m2; d1; d2]
      && Ascii.eqb h1 "-" && Ascii.eqb h2 "-"
  | _ => false
  end.

Definition is_zip (file_name : string) : bool := PyStr.endswith file_name ".zip".

(** The report is written when there are titles and the platform lets
    the file be created. *)
Definition write_succeeds (env : os_env) (directory console_name : string)
    (game_titles : list string) : bool :=
  match game_titles, env_write env (report_file_path env directory console_name) with
  | _ :: _, None => true
  | _, _ => false
  end.

Definition write_error_event (file_path : string) (e : io_error) : log_event :=
  match e with
  | FileNotFoundError => ErrWriteMissing file_path
  | PermissionError => ErrWritePermission file_path
  | OtherError txt => ErrWriteUnexpected file_path txt
  end.

Definition list_error_event (directory : string) (e : io_error) : log_event :=
  match e with
  | FileNotFoundError => ErrDirectoryMissing directory
  | PermissionError => ErrListPermission directory
  | OtherError txt => ErrListUnexpected directory txt
  end.

(** What the scan of a directory returns and what it logs. *)
Definition titles_of (env : os_env) (directory : string) : list string :=
  match env_scandir env directory with
  | inr ents => List.filter is_zip (List.map d_name ents)
  | inl _ => []
  end.

Definition scan_events (env : os_env) (directory : string) : list log_event :=
  match env_scandir env directory with
  | inr _ => []
  | inl e => [list_error_event directory e]
  end.

Definition write_events (env : os_env) (directory console_name : string)
    (game_titles : list string) : list log_event :=
  let file_path := report_file_path env directory console_name in
  AttemptWrite file_path
    :: match game_titles with
       | [] => [NoTitlesFound directory]
       | _ :: _ =>
           match env_write env file_path with
           | None => [TitlesWritten file_path]
           | Some failure => [write_error_event file_path (raised failure)]
           end
       end.

Definition entry_events (env : os_env) (item : string * string)
  : list log_event :=
  Processing (fst item) (snd item)
    :: if os_path_exists env (snd item)
       then scan_events env (snd item)
              ++ write_events env (snd item) (fst item) (titles_of env (snd item))
       else [ErrDirectoryMissing (snd item)].

(** What the round of this entry leaves in its report file, if it
    touches it: the report, or the part of it that got there before the
    write failed. *)
Definition entry_leaves (env : os_env) (item : string * string)
  : option string :=
  let text :=
    PyStr.write_all (report_chunks (fst item) (titles_of env (snd item))) in
  if os_path_exists env (snd item) then
    match titles_of env (snd item),
          env_write env (report_file_path env (snd item) (fst item)) with
    | [], _ => None
    | _ :: _, None => Some text
    | _ :: _, Some (OpenRaises _) => None
    | _ :: _, Some (WriteRaises kept _) => Some (String.substring 0 kept text)
    end
  else None.

(** Does the run write a report for this entry. *)
Definition entry_writes (env : os_env) (item : string * string) : bool :=
  os_path_exists env (snd item)
  && write_succeeds env (snd item) (fst item) (titles_of env (snd item)).

Definition processing_of (items : list (string * string)) : list log_event :=
  List.map (fun item => Processing (fst item) (snd item)) items.

(** The report most recently written for [console_name] while the run
    went through [items], if any. *)
Fixpoint last_report (env : os_env) (items : list (string * string))
    (console_name : string) : option string :=
  match items with
  | [] => None
  | item :: rest =>
      match last_report env rest console_name with
      | Some p => Some p
      | None =>
          if String.eqb (fst item) console_name && entry_writes env item
          then Some (report_file_path env (snd item) (fst item))
          else None
      end
  end.

(** The entries whose directory exists when the run reaches them. *)
Definition count_existing (env : os_env) (items : list (string * string))
  : nat :=
  length (List.filter (fun item => os_path_exists env (snd item)) items).

(** The state [start_process] returns when its guard refuses the run:
    two debug lines, the dialog and one info line; nothing else. *)
Definition start_refused (s : extractor) : extractor :=
  log_message InfoStartWithoutSelection
    (showinfo "Info" "You need to select a console and a directory first!"
       (log_message (DebugEntries (console_entries s))
          (log_message (DebugStart (selected_console s)) s))).

(** The state in which the loop of [start_process] starts. *)
Definition run_start (s : extractor) : extractor :=
  set_progress_value 0%Q
    (log_message (DebugEntries (console_entries s))
       (log_message (DebugStart (selected_console s)) s)).

(** ** [os.path.dirname] (POSIX flavour) and the two "open" buttons *)

(** [p.rfind(c)]: the index of the last [c] in [p], or [-1]. *)
Fixpoint str_rfind (p : string) (c : ascii) : Z :=
  match p with
  | EmptyString => (-1)%Z
  | String a rest =>
      let j := str_rfind rest c in
      if (0 <=? j)%Z then (j + 1)%Z
      else if Ascii.eqb a c then 0%Z else (-1)%Z
  end.

(** [s.rstrip(c)]: [s] without its trailing run of [c]. *)
Fixpoint str_rstrip (s : string) (c : ascii) : string :=
  match s with
  | EmptyString => EmptyString
  | String a rest =>
      match str_rstrip rest c with
      | EmptyString => if Ascii.eqb a c then EmptyString else String a EmptyString
      | String b rest' => String a (String b rest')
      end
  end.

(** [c * n] *)
Fixpoint str_repeat (c : ascii) (n : nat) : string :=
  match n with
  | O => EmptyString
  | S m => String c (str_repeat c m)
  end.

Definition os_path_dirname (p : string) : string :=
  let i := (str_rfind p "/" + 1)%Z in
  let head := String.substring 0 (Z.to_nat i) p in
  if PyStr.truthy head
     && negb (String.eqb head (str_repeat "/" (String.length head)))
  then str_rstrip head "/"
  else head.

(** [open_file] and [open_folder]: what is handed to [webbrowser.open],
    or [None] when the condition fails and nothing is opened. Neither
    changes the application. *)
Definition open_file (s : extractor) : option string :=
  match selected_console s with
  | Some console_name =>
      if PyStr.truthy console_name then
        match output_files s !! console_name with
        | Some file_path => Some file_path
        | None => None
        end
      else None
  | None => None
  end.

Definition open_folder (s : extractor) : option string :=
  match selected_console s with
  | Some console_name =>
      if PyStr.truthy console_name then
        match output_files s !! console_name with
        | Some file_path => Some (os_path_dirname file_path)
        | None => None
        end
      else None
  | None => None
  end.

(** ** [adjust_combobox_width] *)

(** [max(names, key=len)]: the first name of greatest length; [None]
    stands for the [ValueError] raised on an empty list. *)
Definition max_key_len (names : list string) : option string :=
  match names with
  | [] => None
  | first :: rest =>
      Some (fold_left
              (fun best name =>
                 if (String.length best <? String.length name)%nat
                 then name else best)
              rest first)
  end.

(** The width given to the combobox. *)
Definition adjust_combobox_width (consoles : list string) : option nat :=
  match max_key_len consoles with
  | Some name => Some (String.length name)
  | None => None
  end.

(** ** The handlers behind the buttons of the window *)

Inductive action :=
| SelectConsole (console_var : string)
| BrowseDirectory (chosen : string)
| StartProcess (env : os_env)
| OpenFolder
| OpenFile.

Definition step (s : extractor) (a : action) : extractor :=
  match a with
  | SelectConsole console_var => select_console console_var s
  | BrowseDirectory chosen => browse_directory chosen s
  | StartProcess env => start_process env s
  | OpenFolder => s
  | OpenFile => s
  end.

Definition run_actions (acts : list action) (s : extractor) : extractor :=
  fold_left step acts s.

(** The states the window can be in keep this much in order. *)
Definition well_formed (s : extractor) : Prop :=
  NoDup (Dict.keys (console_entries s))
  /\ (forall c, In c (Dict.keys (console_entries s)) -> PyStr.truthy c = true)
  /\ match selected_console s with
     | Some c => PyStr.truthy c = true
                 /\ is_Some (Dict.get c (console_entries s))
     | None => console_entries s = []
     end
  /\ (forall c p, output_files s !! c = Some p ->
                  is_Some (Dict.get c (console_entries s))
                  /\ is_Some (disk s !! p))
  /\ (open_buttons_enabled s = true <-> output_files s <> ∅).

(** A string without [/]. *)
Fixpoint no_slash (s : string) : bool :=
  match s with
  | EmptyString => true
  | String c rest => negb (Ascii.eqb c "/") && no_slash rest
  end.

(** The text most recently left at [path] while the run went through
    [items], if any. *)
Fixpoint last_written (env : os_env) (items : list (string * string))
    (path : string) : option string :=
  match items with
  | [] => None
  | item :: rest =>
      match last_written env rest path with
      | Some t => Some t
      | None =>
          if String.eqb (report_file_path env (snd item) (fst item)) path
          then entry_leaves env item
          else None
      end
  end.

(** A session in which both consoles got a directory that exists. *)
Module Session.

Definition both_valid : extractor :=
  browse_directory "/roms/xbox"
    (select_console "Xbox"
       (browse_directory "/roms/nes"
          (select_console "Nintendo Entertainment System (NES)" init))).

Definition clicks : list action := [
  SelectConsole "Nintendo Entertainment System (NES)";
  BrowseDirectory "/roms/nes";
  SelectConsole "Xbox";
  StartProcess Sample.env;
  BrowseDirectory "/roms/xbox";
  StartProcess Sample.env;
  OpenFile
].

End Session.

(** Records point into the registry [registry] and at files on disk,
    and the buttons are on exactly when there is a record. *)
Definition records_ok (registry : list (string * string)) (s : extractor)
  : Prop :=
  (forall c p, output_files s !! c = Some p ->
               is_Some (Dict.get c registry) /\ is_Some (disk s !! p))
  /\ (open_buttons_enabled s = true <-> output_files s <> ∅).

Definition is_written (m : log_event) : bool :=
  match m with TitlesWritten _ => true | _ => false end.

Definition is_no_titles (m : log_event) : bool :=
  match m with NoTitlesFound _ => true | _ => false end.

(** Reading a date stamp back: the year, month and day its digits
    spell. *)
Definition digit_value (c : ascii) : nat := (nat_of_ascii c - 48)%nat.

Definition parse_Ymd (stamp : string) : option (nat * nat * nat) :=
  match stamp with
  | String y1 (String y2 (String y3 (String y4 (String h1
      (String m1 (String m2 (String h2 (String d1 (String d2
         EmptyString))))))))) =>
      if is_iso_date stamp then
        Some ((1000 * digit_value y1 + 100 * digit_value y2
               + 10 * digit_value y3 + digit_value y4)%nat,
              (10 * digit_value m1 + digit_value m2)%nat,
              (10 * digit_value d1 + digit_value d2)%nat)
      else None
  | _ => None
  end.

(** * Properties *)

(** ** Facts about strings *)

Section StringFacts.

Lemma append_nil_l (s : string) : "" +:+ s = s.
Proof. reflexivity. Qed.

Lemma append_cons (c : ascii) (s t : string) :
  String c s +:+ t = String c (s +:+ t).
Proof. reflexivity. Qed.

Lemma append_nil_r (s : string) : s +:+ "" = s.
Proof.
  induction s as [|c s IH]; [reflexivity|].
  rewrite append_cons, IH. reflexivity.
Qed.

Lemma append_assoc (a b c : string) : (a +:+ b) +:+ c = a +:+ (b +:+ c).
Proof.
  induction a as [|x a IH]; [reflexivity|].
  rewrite !append_cons, IH. reflexivity.
Qed.

Lemma endswith_unfold (s suffix : string) :
  PyStr.endswith s suffix =
  if String.eqb s suffix then true
  else match s with
       | EmptyString => false
       | String _ rest => PyStr.endswith rest suffix
       end.
Proof. destruct s; reflexivity. Qed.

(** [endswith] is "has the suffix": the name is some stem followed by
    the suffix, character for character. *)
Lemma endswith_spec (s suffix : string) :
  PyStr.endswith s suffix = true <-> exists stem, s = stem +:+ suffix.
Proof.
  split.
  - induction s as [|c s IH]; rewrite endswith_unfold.
    + destruct (String.eqb_spec "" suffix) as [<-|Hne]; intros H.
      * exists "". reflexivity.
      * discriminate.
    + destruct (String.eqb_spec (String c s) suffix) as [<-|Hne]; intros H.
      * exists "". reflexivity.
      * destruct (IH H) as [stem ->]. exists (String c stem). reflexivity.
  - intros [stem ->]. induction stem as [|c stem IH].
    + rewrite append_nil_l, endswith_unfold, String.eqb_refl. reflexivity.
    + rewrite append_cons, endswith_unfold.
      destruct (String.eqb _ suffix); [reflexivity|exact IH].
Qed.

Lemma single_line_app (a b : string) :
  PyStr.single_line (a +:+ b) = PyStr.single_line a && PyStr.single_line b.
Proof.
  induction a as [|c a IH]; [reflexivity|].
  rewrite append_cons. cbn [PyStr.single_line]. rewrite IH.
  rewrite andb_assoc. reflexivity.
Qed.

(** A newline-free line, its newline, and then the rest. *)
Lemma lines_line (l rest : string) :
  PyStr.single_line l = true ->
  PyStr.lines (l +:+ PyStr.nl +:+ rest) = l :: PyStr.lines rest.
Proof.
  induction l as [|c l IH]; intros Hl.
  - reflexivity.
  - cbn [PyStr.single_line] in Hl. apply andb_prop in Hl as [Hc Hl].
    rewrite append_cons. cbn [PyStr.lines].
    apply negb_true_iff in Hc. rewrite Hc, (IH Hl). reflexivity.
Qed.

Lemma lines_unlines (ls : list string) :
  forallb PyStr.single_line ls = true ->
  PyStr.lines (PyStr.unlines ls) = ls.
Proof.
  induction ls as [|l ls IH]; intros H; [reflexivity|].
  cbn [forallb] in H. apply andb_prop in H as [Hl Hls].
  cbn [PyStr.unlines]. rewrite (lines_line _ _ Hl), (IH Hls). reflexivity.
Qed.

Lemma write_all_unlines (ls : list string) :
  PyStr.write_all (List.map (fun l => l +:+ PyStr.nl) ls) = PyStr.unlines ls.
Proof.
  induction ls as [|l ls IH]; [reflexivity|].
  cbn [List.map PyStr.write_all PyStr.unlines].
  rewrite IH, append_assoc. reflexivity.
Qed.

End StringFacts.

(** ** The date stamp has the shape YYYY-MM-DD *)

Lemma digit_is_digit (n : nat) : is_digit (digit n) = true.
Proof.
  unfold digit. pose proof (Nat.mod_upper_bound n 10) as Hlt.
  remember (n mod 10) as k eqn:Hk. clear Hk.
  do 10 (destruct k as [|k]; [reflexivity|]). lia.
Qed.

Lemma strftime_Ymd_shape (d : datetime) : is_iso_date (strftime_Ymd d) = true.
Proof.
  unfold strftime_Ymd, pad4, pad2. rewrite !append_cons, !append_nil_l.
  cbn [is_iso_date forallb]. rewrite !digit_is_digit. reflexivity.
Qed.

(** ** The scan *)

Lemma scan_loop_filter (listing game_titles : list string) :
  scan_loop listing game_titles = game_titles ++ List.filter is_zip listing.
Proof.
  revert game_titles.
  induction listing as [|file_name rest IH]; intros game_titles.
  - cbn [scan_loop List.filter]. rewrite app_nil_r. reflexivity.
  - cbn [scan_loop List.filter]. unfold is_zip at 1.
    destruct (PyStr.endswith file_name ".zip").
    + rewrite IH, <- app_assoc. reflexivity.
    + apply IH.
Qed.

Lemma get_game_titles_listed (env : os_env) (directory : string) (s : extractor)
    (ents : list dirent) :
  env_scandir env directory = inr ents ->
  get_game_titles env directory s
  = (List.filter is_zip (List.map d_name ents), s).
Proof.
  intros H. unfold get_game_titles, os_listdir. rewrite H.
  rewrite scan_loop_filter. reflexivity.
Qed.

Lemma get_game_titles_raised (env : os_env) (directory : string) (s : extractor)
    (e : io_error) :
  env_scandir env directory = inl e ->
  get_game_titles env directory s
  = ([], log_message
           match e with
           | FileNotFoundError => ErrDirectoryMissing directory
           | PermissionError => ErrListPermission directory
           | OtherError txt => ErrListUnexpected directory txt
           end s).
Proof.
  intros H. unfold get_game_titles, os_listdir. rewrite H.
  destruct e; reflexivity.
Qed.

(** C1. Whenever the directory can be listed, [get_game_titles] returns
    the names of the listing that end in the literal suffix [.zip]
    (same characters, same case), each as often and in the order the
    listing has them, and leaves the application untouched. *)
Theorem get_game_titles_zip_suffix (env : os_env) (directory : string)
    (s : extractor) (ents : list dirent) :
  env_scandir env directory = inr ents ->
  let listing := List.map d_name ents in
  let game_titles := fst (get_game_titles env directory s) in
  game_titles = List.filter is_zip listing
  /\ (forall t, In t game_titles <->
                In t listing /\ exists stem, t = stem +:+ ".zip")
  /\ snd (get_game_titles env directory s) = s.
Proof.
  intros H listing game_titles. subst listing game_titles.
  rewrite (get_game_titles_listed _ _ _ _ H). cbn [fst snd].
  split; [reflexivity|]. split; [|reflexivity].
  intros t. rewrite filter_In. unfold is_zip. rewrite endswith_spec.
  reflexivity.
Qed.

(** The directory of the NES example: only [Mega Man.zip] is returned. *)
Lemma get_game_titles_zip_suffix_nes :
  env_scandir Sample.env "/roms/nes" = inr Sample.nes_dir
  /\ fst (get_game_titles Sample.env "/roms/nes" init) = ["Mega Man.zip"].
Proof.
  split; [reflexivity|].
  destruct (get_game_titles_zip_suffix Sample.env "/roms/nes" init
              Sample.nes_dir eq_refl) as [H _].
  rewrite H. reflexivity.
Defined.

(** The suffix is matched case-sensitively. *)
Example upper_case_suffix_is_skipped :
  fst (get_game_titles Sample.env "/roms/xbox" init) = ["Halo.zip"; "foo.zip"].
Proof. reflexivity. Qed.

(** ** The report *)

Lemma write_game_titles_empty (env : os_env) (directory console_name : string)
    (s : extractor) :
  write_game_titles env directory console_name [] s
  = log_message (NoTitlesFound directory)
      (log_message (AttemptWrite (report_file_path env directory console_name)) s).
Proof. reflexivity. Qed.

Lemma write_game_titles_written (env : os_env)
    (directory console_name : string) (game_titles : list string) (s : extractor) :
  game_titles <> [] ->
  env_write env (report_file_path env directory console_name) = None ->
  let file_path := report_file_path env directory console_name in
  write_game_titles env directory console_name game_titles s
  = set_open_buttons_enabled true
      (set_output_files (<[console_name := file_path]> (output_files s))
         (log_message (TitlesWritten file_path)
            (set_disk
               (<[file_path :=
                    PyStr.write_all (report_chunks console_name game_titles)]>
                  (disk s))
               (log_message (AttemptWrite file_path) s)))).
Proof.
  intros Hne Hw file_path. subst file_path.
  unfold write_game_titles. fold (report_file_name env console_name).
  fold (report_file_path env directory console_name).
  destruct game_titles as [|t ts]; [congruence|]. rewrite Hw. reflexivity.
Qed.

Lemma write_game_titles_refused (env : os_env)
    (directory console_name : string) (game_titles : list string) (s : extractor)
    (failure : write_failure) :
  game_titles <> [] ->
  env_write env (report_file_path env directory console_name) = Some failure ->
  let file_path := report_file_path env directory console_name in
  let text := PyStr.write_all (report_chunks console_name game_titles) in
  write_game_titles env directory console_name game_titles s
  = log_message (write_error_event file_path (raised failure))
      match failure with
      | OpenRaises _ => log_message (AttemptWrite file_path) s
      | WriteRaises kept _ =>
          set_disk (<[file_path := String.substring 0 kept text]> (disk s))
            (log_message (AttemptWrite file_path) s)
      end.
Proof.
  intros Hne Hw file_path text. subst file_path text.
  unfold write_game_titles. fold (report_file_name env console_name).
  fold (report_file_path env directory console_name).
  destruct game_titles as [|t ts]; [congruence|]. rewrite Hw.
  destruct failure as [[| |?]|kept [| |?]]; reflexivity.
Qed.

Lemma report_text_unlines (console_name : string) (game_titles : list string) :
  PyStr.write_all (report_chunks console_name game_titles)
  = PyStr.unlines
      (("Console: " +:+ console_name) :: warning_line console_name
         :: "" :: game_titles).
Proof.
  unfold report_chunks. cbn [PyStr.write_all PyStr.unlines].
  rewrite write_all_unlines, !append_assoc. reflexivity.
Qed.

Lemma startswith_slash_file_name (console_name rest : string) :
  PyStr.startswith console_name "/" = false ->
  PyStr.startswith (console_name +:+ "_" +:+ rest) "/" = false.
Proof.
  unfold PyStr.startswith. destruct console_name as [|c console_name].
  - intros _. reflexivity.
  - rewrite append_cons. cbn [String.prefix].
    destruct (ascii_dec "/" c); [|reflexivity].
    destruct console_name; discriminate.
Qed.

Lemma os_path_join_inside (a b : string) :
  PyStr.startswith b "/" = false ->
  exists sep, (sep = "" \/ sep = "/") /\ os_path_join a b = a +:+ sep +:+ b.
Proof.
  intros H. unfold os_path_join. rewrite H.
  destruct (negb (PyStr.truthy a) || PyStr.endswith a "/").
  - exists "". split; [left; reflexivity | reflexivity].
  - exists "/". split; [right; reflexivity | reflexivity].
Qed.

(** C3. With no titles [write_game_titles] creates no file and records
    no report; it logs the path it was about to use and then that no
    game titles were found.  A listable directory without any [.zip]
    name therefore leaves no artifact. *)
Theorem write_game_titles_no_titles (env : os_env)
    (directory console_name : string) (s : extractor) :
  let s' := write_game_titles env directory console_name [] s in
  disk s' = disk s
  /\ output_files s' = output_files s
  /\ open_buttons_enabled s' = open_buttons_enabled s
  /\ log_text s'
     = log_text s
       ++ [AttemptWrite (report_file_path env directory console_name);
           NoTitlesFound directory]
  /\ (forall repr_dict,
        message_text repr_dict (NoTitlesFound directory)
        = "No game titles found in the directory: " +:+ directory)
  /\ (forall ents,
        env_scandir env directory = inr ents ->
        List.filter is_zip (List.map d_name ents) = [] ->
        let r := get_game_titles env directory s in
        let s'' := write_game_titles env directory console_name (fst r) (snd r) in
        disk s'' = disk s /\ output_files s'' = output_files s).
Proof.
  intros s'. subst s'. rewrite write_game_titles_empty.
  cbn [disk output_files open_buttons_enabled log_text log_message].
  split; [reflexivity|]. split; [reflexivity|]. split; [reflexivity|].
  split; [rewrite <- app_assoc; reflexivity|]. split; [reflexivity|].
  intros ents Hscan Hnone. cbv zeta.
  rewrite (get_game_titles_listed _ _ _ _ Hscan), Hnone.
  split; reflexivity.
Qed.

(** ** One registry entry of the run *)

Ltac by_cases_of_entry env item :=
  unfold process_entry, entry_events, entry_writes, write_succeeds,
    scan_events, titles_of, get_game_titles, os_listdir, write_game_titles,
    write_events, report_file_path, report_file_name;
  destruct (os_path_exists env (snd item)); cbn [negb andb];
  [ destruct (env_scandir env (snd item)) as [[| |?]|?];
    cbn [fst snd scan_loop];
    rewrite ?scan_loop_filter; cbn [List.app];
    repeat match goal with
      | |- context [match ?l with [] => _ | _ :: _ => _ end] =>
          destruct l
      | |- context [match env_write ?e ?p with _ => _ end] =>
          destruct (env_write e p) as [[[| |?]|? [| |?]]|]
      end
  | ].

Lemma get_game_titles_titles_of (env : os_env) (directory : string) (s : extractor) :
  fst (get_game_titles env directory s) = titles_of env directory.
Proof.
  unfold get_game_titles, titles_of, os_listdir.
  destruct (env_scandir env directory) as [[| |?]|?]; try reflexivity.
  cbn [fst]. apply scan_loop_filter.
Qed.

Lemma process_entry_log (env : os_env) (total : nat) (s : extractor)
    (item : string * string) :
  log_text (process_entry env total s item)
  = log_text s ++ entry_events env item.
Proof.
  by_cases_of_entry env item; cbn; rewrite <- ?app_assoc; reflexivity.
Qed.

Lemma process_entry_output_files (env : os_env) (total : nat) (s : extractor)
    (item : string * string) :
  output_files (process_entry env total s item)
  = if entry_writes env item
    then <[fst item := report_file_path env (snd item) (fst item)]>
           (output_files s)
    else output_files s.
Proof. by_cases_of_entry env item; reflexivity. Qed.

Lemma process_entry_disk (env : os_env) (total : nat) (s : extractor)
    (item : string * string) :
  disk (process_entry env total s item)
  = match entry_leaves env item with
    | Some text =>
        <[report_file_path env (snd item) (fst item) := text]> (disk s)
    | None => disk s
    end.
Proof.
  unfold entry_leaves. by_cases_of_entry env item; reflexivity.
Qed.

Lemma entry_writes_leaves (env : os_env) (item : string * string) :
  entry_writes env item = true ->
  entry_leaves env item
  = Some (PyStr.write_all
            (report_chunks (fst item) (titles_of env (snd item)))).
Proof.
  unfold entry_writes, entry_leaves, write_succeeds.
  destruct (os_path_exists env (snd item)); [|discriminate].
  destruct (titles_of env (snd item)); [discriminate|].
  destruct (env_write env (report_file_path env (snd item) (fst item)));
    [discriminate|reflexivity].
Qed.

Lemma process_entry_progress (env : os_env) (total : nat) (s : extractor)
    (item : string * string) :
  progress_value (process_entry env total s item)
  = if os_path_exists env (snd item)
    then (progress_value s + 100 / inject_Z (Z.of_nat total))%Q
    else progress_value s.
Proof. by_cases_of_entry env item; reflexivity. Qed.

Lemma process_entry_registry (env : os_env) (total : nat) (s : extractor)
    (item : string * string) :
  console_entries (process_entry env total s item) = console_entries s
  /\ selected_console (process_entry env total s item) = selected_console s.
Proof. by_cases_of_entry env item; split; reflexivity. Qed.

(** ** The loop over the registry *)

Lemma process_entries_cons (env : os_env) (total : nat)
    (item : string * string) (rest : list (string * string)) (s : extractor) :
  process_entries env total (item :: rest) s
  = process_entries env total rest (process_entry env total s item).
Proof. reflexivity. Qed.

Lemma process_entries_log (env : os_env) (total : nat)
    (items : list (string * string)) (s : extractor) :
  log_text (process_entries env total items s)
  = log_text s ++ flat_map (entry_events env) items.
Proof.
  revert s. induction items as [|item rest IH]; intros s.
  - cbn. rewrite app_nil_r. reflexivity.
  - rewrite process_entries_cons, IH, process_entry_log.
    cbn [flat_map]. rewrite <- app_assoc. reflexivity.
Qed.

Lemma entry_events_processing (env : os_env) (item : string * string) :
  List.filter is_processing (entry_events env item)
  = [Processing (fst item) (snd item)]
  /\ List.filter is_completed (entry_events env item) = [].
Proof.
  unfold entry_events, scan_events, write_events, list_error_event,
    write_error_event.
  destruct (os_path_exists env (snd item)); [|split; reflexivity].
  destruct (env_scandir env (snd item)) as [[| |?]|?];
    destruct (titles_of env (snd item));
    destruct (env_write env (report_file_path env (snd item) (fst item)))
      as [[[| |?]|? [| |?]]|]; split; reflexivity.
Qed.

Lemma run_events_processing (env : os_env) (items : list (string * string)) :
  List.filter is_processing (flat_map (entry_events env) items)
  = processing_of items
  /\ List.filter is_completed (flat_map (entry_events env) items) = [].
Proof.
  induction items as [|item rest [IHp IHc]]; [split; reflexivity|].
  destruct (entry_events_processing env item) as [Hp Hc].
  cbn [flat_map processing_of List.map].
  rewrite !List.filter_app, Hp, Hc, IHp, IHc. split; reflexivity.
Qed.

Lemma process_entries_registry (env : os_env) (total : nat)
    (items : list (string * string)) (s : extractor) :
  console_entries (process_entries env total items s) = console_entries s
  /\ selected_console (process_entries env total items s) = selected_console s.
Proof.
  revert s. induction items as [|item rest IH]; intros s; [split; reflexivity|].
  rewrite process_entries_cons.
  destruct (IH (process_entry env total s item)) as [-> ->].
  apply process_entry_registry.
Qed.

Lemma process_entries_output_files (env : os_env) (total : nat)
    (items : list (string * string)) (s : extractor) (console_name : string) :
  output_files (process_entries env total items s) !! console_name
  = match last_report env items console_name with
    | Some p => Some p
    | None => output_files s !! console_name
    end.
Proof.
  revert s. induction items as [|item rest IH]; intros s; [reflexivity|].
  rewrite process_entries_cons, IH. cbn [last_report].
  destruct (last_report env rest console_name); [reflexivity|].
  rewrite process_entry_output_files.
  destruct (String.eqb_spec (fst item) console_name) as [Heq|Hne];
    destruct (entry_writes env item); cbn [andb]; try reflexivity.
  - rewrite Heq. apply lookup_insert_eq.
  - apply lookup_insert_ne, Hne.
Qed.

Lemma count_existing_cons (env : os_env) (item : string * string)
    (rest : list (string * string)) :
  count_existing env (item :: rest)
  = if os_path_exists env (snd item)
    then S (count_existing env rest) else count_existing env rest.
Proof.
  unfold count_existing. cbn [List.filter].
  destruct (os_path_exists env (snd item)); reflexivity.
Qed.

Lemma count_existing_le (env : os_env) (items : list (string * string)) :
  (count_existing env items <= length items)%nat.
Proof.
  induction items as [|item rest IH]; [apply Nat.le_refl|].
  rewrite count_existing_cons. cbn [length].
  destruct (os_path_exists env (snd item)); lia.
Qed.

(** Every entry whose directory exists adds [100 / total] to the
    progress bar; the other entries add nothing. *)
Lemma process_entries_progress (env : os_env) (total : nat)
    (items : list (string * string)) (s : extractor) :
  (progress_value (process_entries env total items s)
   == progress_value s
      + inject_Z (Z.of_nat (count_existing env items))
        * (100 / inject_Z (Z.of_nat total)))%Q.
Proof.
  revert s. induction items as [|item rest IH]; intros s.
  - cbn. ring.
  - rewrite process_entries_cons, IH, process_entry_progress,
      count_existing_cons.
    destruct (os_path_exists env (snd item)); [|reflexivity].
    rewrite Nat2Z.inj_succ. unfold Z.succ. rewrite inject_Z_plus. ring.
Qed.

(** ** The run *)

Lemma start_process_refused (env : os_env) (s : extractor) :
  start_guard s = true -> start_process env s = start_refused s.
Proof.
  intros H. unfold start_process.
  change (start_guard (log_message _ (log_message _ s))) with (start_guard s).
  rewrite H. reflexivity.
Qed.

Lemma start_process_started (env : os_env) (s : extractor) :
  start_guard s = false ->
  start_process env s
  = set_progress_value 100%Q
      (log_message ProcessCompleted
         (process_entries env (length (console_entries s))
            (console_entries s) (run_start s))).
Proof.
  intros H. unfold start_process.
  change (start_guard (log_message _ (log_message _ s))) with (start_guard s).
  rewrite H. reflexivity.
Qed.

Lemma start_process_started_log (env : os_env) (s : extractor) :
  start_guard s = false ->
  log_text (start_process env s)
  = log_text s
    ++ [DebugStart (selected_console s); DebugEntries (console_entries s)]
    ++ flat_map (entry_events env) (console_entries s)
    ++ [ProcessCompleted].
Proof.
  intros H. rewrite (start_process_started _ _ H).
  cbn [log_text set_progress_value log_message].
  rewrite process_entries_log. cbn [log_text run_start set_progress_value log_message].
  rewrite <- !app_assoc. reflexivity.
Qed.

Lemma after_entries_progress (env : os_env) (k : nat) (s : extractor) :
  (progress_value (after_entries env k s)
   == inject_Z (Z.of_nat (count_existing env (firstn k (console_entries s))))
      * (100 / inject_Z (Z.of_nat (length (console_entries s)))))%Q.
Proof.
  unfold after_entries.
  cbn [console_entries set_progress_value log_message].
  rewrite process_entries_progress. cbn [progress_value set_progress_value].
  ring.
Qed.

(** X12. Before its last entry the loop of the run has not brought the
    bar to 100, whatever the platform answers: 100 is reached only once
    every entry has been gone through. *)
Lemma after_entries_below_100 (env : os_env) (k : nat) (s : extractor) :
  (k < length (console_entries s))%nat ->
  (progress_value (after_entries env k s) < 100)%Q.
Proof.
  intros Hk. rewrite after_entries_progress.
  set (n := length (console_entries s)) in *.
  set (c := count_existing env (firstn k (console_entries s))).
  assert (Hc : (c < n)%nat).
  { subst c. pose proof (count_existing_le env (firstn k (console_entries s))) as H.
    rewrite length_firstn in H. lia. }
  assert (Hn : (0 < inject_Z (Z.of_nat n))%Q).
  { unfold Qlt. cbn. lia. }
  unfold Qdiv. rewrite Qmult_assoc. apply Qlt_shift_div_r; [exact Hn|].
  unfold Qlt. cbn. lia.
Qed.

Module Dict_facts.

Lemma set_absent (k v : string) (d : list (string * string)) :
  Dict.get k d = None -> Dict.set k v d = d ++ [(k, v)].
Proof.
  induction d as [|[k' v'] d IH]; intros H; [reflexivity|].
  cbn [Dict.get Dict.set] in *.
  destruct (String.eqb k k'); [discriminate|].
  rewrite (IH H). reflexivity.
Qed.

Lemma set_same (k v : string) (d : list (string * string)) :
  Dict.get k d = Some v -> Dict.set k v d = d.
Proof.
  induction d as [|[k' v'] d IH]; intros H; [discriminate|].
  cbn [Dict.get Dict.set] in *.
  destruct (String.eqb k k').
  - injection H as ->. reflexivity.
  - rewrite (IH H). reflexivity.
Qed.

Lemma get_set (k v : string) (d : list (string * string)) :
  Dict.get k (Dict.set k v d) = Some v.
Proof.
  induction d as [|[k' v'] d IH].
  - cbn. rewrite String.eqb_refl. reflexivity.
  - cbn [Dict.set]. destruct (String.eqb k k') eqn:E; cbn [Dict.get]; rewrite E.
    + reflexivity.
    + exact IH.
Qed.

Lemma get_set_other (k k' v : string) (d : list (string * string)) :
  k <> k' -> Dict.get k' (Dict.set k v d) = Dict.get k' d.
Proof.
  intros Hne. induction d as [|[k0 v0] d IH].
  - cbn. destruct (String.eqb_spec k' k); [congruence|reflexivity].
  - cbn [Dict.set]. destruct (String.eqb_spec k k0) as [->|Hk]; cbn [Dict.get].
    + destruct (String.eqb_spec k' k0); [congruence|reflexivity].
    + rewrite IH. reflexivity.
Qed.

End Dict_facts.

Lemma select_console_entries (console_name : string) (s : extractor) :
  PyStr.truthy console_name = true ->
  console_entries (select_console console_name s)
  = Dict.set console_name
      (default "" (Dict.get console_name (console_entries s)))
      (console_entries s).
Proof. intros H. unfold select_console. rewrite H. reflexivity. Qed.

Lemma process_entry_empty_directory (env : os_env) (total : nat)
    (s : extractor) (console_name : string) :
  process_entry env total s (console_name, "")
  = log_message (ErrDirectoryMissing "")
      (log_message (Processing console_name "") s).
Proof. reflexivity. Qed.

(** C4 (the code departs from it). Registry: Atari 2600 selected without
    a directory, then Xbox with [/roms/xbox]. After the first entry,
    which fails, the bar is still at 0 and not at 1/2 of 100; after the
    second and last entry the loop has brought it to 50 only; the
    closing assignment then sets 100. *)
Theorem progress_skips_entry_without_directory :
  let s := Sample.two_consoles in
  console_entries s = [("Atari 2600", ""); ("Xbox", "/roms/xbox")]
  /\ start_guard s = false
  /\ (progress_value (after_entries Sample.env 1 s) == 0)%Q
  /\ ~ (progress_value (after_entries Sample.env 1 s) == 100 * (1 / 2))%Q
  /\ (progress_value (after_entries Sample.env 2 s) == 50)%Q
  /\ ~ (progress_value (after_entries Sample.env 2 s) == 100 * (2 / 2))%Q
  /\ (progress_value (start_process Sample.env s) == 100)%Q.
Proof.
  cbv zeta. repeat split; try reflexivity; vm_compute; discriminate.
Qed.

(** C5, as the code has it. [start_process] returns without doing any
    work exactly when its guard holds: no console is selected, or the
    registry has no non-empty directory for the selected console. An
    empty registry is one such case. In every other state the run goes
    through all registry entries. *)
Theorem start_process_guard (env : os_env) (s : extractor) :
  let s' := start_process env s in
  (s' = start_refused s <-> start_guard s = true)
  /\ (start_guard s = true <->
      selected_console s = None
      \/ exists console_name,
           selected_console s = Some console_name
           /\ (console_name = ""
               \/ Dict.get console_name (console_entries s) = None
               \/ Dict.get console_name (console_entries s) = Some ""))
  /\ (console_entries s = [] -> start_guard s = true)
  /\ (start_guard s = true ->
      disk s' = disk s /\ output_files s' = output_files s
      /\ progress_value s' = progress_value s
      /\ console_entries s' = console_entries s
      /\ log_text s'
         = log_text s
           ++ [DebugStart (selected_console s);
               DebugEntries (console_entries s); InfoStartWithoutSelection])
  /\ (start_guard s = false ->
      exists emitted,
        log_text s'
        = log_text s
          ++ [DebugStart (selected_console s); DebugEntries (console_entries s)]
          ++ emitted ++ [ProcessCompleted]
        /\ List.filter is_processing emitted = processing_of (console_entries s)).
Proof.
  intros s'. subst s'.
  assert (Hlog_refused :
    log_text (start_refused s)
    = log_text s
      ++ [DebugStart (selected_console s);
          DebugEntries (console_entries s); InfoStartWithoutSelection]).
  { cbn. rewrite <- !app_assoc. reflexivity. }
  split; [|split; [|split; [|split]]].
  - split.
    + intros Heq. destruct (start_guard s) eqn:Hg; [reflexivity|exfalso].
      pose proof (start_process_started_log env s Hg) as Hlog.
      rewrite Heq, Hlog_refused in Hlog.
      apply app_inv_head in Hlog.
      injection Hlog as Hlog.
      destruct (flat_map (entry_events env) (console_entries s)) as [|m ms];
        [discriminate|].
      cbn in Hlog. injection Hlog as _ Hlog. destruct ms; discriminate.
    + apply start_process_refused.
  - unfold start_guard. destruct (selected_console s) as [c|].
    + split.
      * intros H. right. exists c. split; [reflexivity|].
        destruct c as [|a c]; [left; reflexivity|right]. cbn in H.
        destruct (Dict.get (String a c) (console_entries s)) as [[|b d]|];
          [right; reflexivity|discriminate|left; reflexivity].
      * intros [H|(c' & Hc & H)]; [discriminate|]. injection Hc as <-.
        destruct H as [->|[->| ->]]; [reflexivity| |];
          apply orb_true_r.
    + split; [intros _; left; reflexivity|reflexivity].
  - intros He. unfold start_guard. rewrite He.
    destruct (selected_console s) as [c|]; [|reflexivity].
    apply orb_true_r.
  - intros Hg. rewrite (start_process_refused env s Hg), Hlog_refused.
    repeat split.
  - intros Hg. exists (flat_map (entry_events env) (console_entries s)).
    split; [apply start_process_started_log, Hg|].
    apply run_events_processing.
Qed.

(** The registry holds an entry, and yet the run is refused. *)
Lemma refused_with_console_in_registry :
  console_entries Sample.only_selected = [("Xbox", "")]
  /\ start_process Sample.env Sample.only_selected
     = start_refused Sample.only_selected
  /\ ~ (start_process Sample.env Sample.only_selected
        = start_refused Sample.only_selected
        <-> console_entries Sample.only_selected = []).
Proof.
  split; [reflexivity|]. split; [reflexivity|].
  intros [H _]. specialize (H eq_refl). discriminate H.
Qed.

(** X13. The completion line is the text of no other message: a log
    line reading [Process completed.] can only come from the end of a
    run, whatever names and paths the other messages carry. *)
Lemma completed_text_unique (repr_dict : list (string * string) -> string)
    (m : log_event) :
  message_text repr_dict m = "Process completed." -> m = ProcessCompleted.
Proof.
  destruct m; intros H; try reflexivity; exfalso;
    unfold message_text in H;
    repeat rewrite ?append_cons, ?append_nil_l in H; congruence.
Qed.

(** C7. When listing the directory raises (it does not exist, access is
    denied, or anything else), [get_game_titles] returns the empty list
    and a state that differs only by one error line naming the
    directory. Nothing escapes: inside a run the entry goes on to the
    report step, which finds no titles, and the entries after it are
    processed as usual. *)
Theorem get_game_titles_listing_raises (env : os_env) (directory : string)
    (s : extractor) (e : io_error) :
  env_scandir env directory = inl e ->
  let r := get_game_titles env directory s in
  let m := list_error_event directory e in
  fst r = []
  /\ snd r = log_message m s
  /\ is_error m = true
  /\ (e = FileNotFoundError ->
      forall repr_dict,
        message_text repr_dict m
        = "Error: The directory '" +:+ directory +:+ "' does not exist.")
  /\ (forall total console_name rest,
        os_path_exists env directory = true ->
        let s' :=
          process_entries env total ((console_name, directory) :: rest) s in
        log_text s'
        = log_text s
          ++ [Processing console_name directory; m;
              AttemptWrite (report_file_path env directory console_name);
              NoTitlesFound directory]
          ++ flat_map (entry_events env) rest
        /\ List.filter is_processing (flat_map (entry_events env) rest)
           = processing_of rest).
Proof.
  intros H r m. subst r m.
  rewrite (get_game_titles_raised _ _ _ _ H). cbn [fst snd].
  split; [reflexivity|]. split; [destruct e; reflexivity|].
  split; [destruct e; reflexivity|].
  split; [intros -> repr_dict; reflexivity|].
  intros total console_name rest Hex. cbv zeta.
  rewrite process_entries_log. cbn [flat_map].
  split; [|apply run_events_processing].
  unfold entry_events at 1, scan_events, titles_of, write_events.
  cbn [fst snd]. rewrite Hex, H. reflexivity.
Qed.

(** Scanning a directory that is not there, on the sample platform. *)
Lemma get_game_titles_listing_raises_sample :
  env_scandir Sample.env "/roms/gone" = inl FileNotFoundError
  /\ get_game_titles Sample.env "/roms/gone" init
     = ([], log_message (ErrDirectoryMissing "/roms/gone") init).
Proof.
  split; [reflexivity|].
  destruct (get_game_titles_listing_raises Sample.env "/roms/gone" init
              FileNotFoundError eq_refl) as (Ht & Hs & _).
  rewrite (surjective_pairing (get_game_titles Sample.env "/roms/gone" init)).
  rewrite Ht, Hs. reflexivity.
Defined.

(** C8. [output_files] is a map, so a console has at most one record.
    [write_game_titles] sets the console's record to the report path
    exactly when the report was written in full, and then that file is
    on disk; in every other case (no titles, [open] refused, or a write
    that breaks off and leaves a partial file) the map and the buttons
    stay as they were. Through the loop of a run, and through a whole
    [start_process], a console's record is the path of the last report
    written for it, or else what it was before. Selecting a console,
    choosing a directory and scanning never touch the map. *)
Theorem output_files_latest_successful_write (env : os_env) :
  (forall directory console_name game_titles s,
     let s' := write_game_titles env directory console_name game_titles s in
     let file_path := report_file_path env directory console_name in
     let text := PyStr.write_all (report_chunks console_name game_titles) in
     if write_succeeds env directory console_name game_titles
     then output_files s' = <[console_name := file_path]> (output_files s)
          /\ output_files s' !! console_name = Some file_path
          /\ disk s' !! file_path = Some text
     else output_files s' = output_files s
          /\ open_buttons_enabled s' = open_buttons_enabled s
          /\ match game_titles, env_write env file_path with
             | _ :: _, Some (WriteRaises kept _) =>
                 disk s'
                 = <[file_path := String.substring 0 kept text]> (disk s)
             | _, _ => disk s' = disk s
             end)
  /\ (forall total items s console_name,
        output_files (process_entries env total items s) !! console_name
        = match last_report env items console_name with
          | Some p => Some p
          | None => output_files s !! console_name
          end)
  /\ (forall s console_name,
        output_files (start_process env s) !! console_name
        = if start_guard s then output_files s !! console_name
          else match last_report env (console_entries s) console_name with
               | Some p => Some p
               | None => output_files s !! console_name
               end)
  /\ (forall console_var s,
        output_files (select_console console_var s) = output_files s)
  /\ (forall chosen s,
        output_files (browse_directory chosen s) = output_files s)
  /\ (forall directory s,
        output_files (snd (get_game_titles env directory s)) = output_files s).
Proof.
  split; [|split; [|split; [|split; [|split]]]].
  - intros directory console_name game_titles s s' file_path text.
    subst s' file_path text. unfold write_succeeds.
    destruct game_titles as [|t ts].
    + rewrite write_game_titles_empty. repeat split.
    + destruct (env_write env (report_file_path env directory console_name))
        as [failure|] eqn:Hw.
      * rewrite (write_game_titles_refused env directory console_name
                   (t :: ts) s failure ltac:(discriminate) Hw).
        destruct failure as [e|kept e]; repeat split.
      * rewrite (write_game_titles_written env directory console_name
                   (t :: ts) s ltac:(discriminate) Hw).
        cbn [output_files disk set_open_buttons_enabled set_output_files
               log_message set_disk].
        split; [reflexivity|]. split; apply lookup_insert_eq.
  - apply process_entries_output_files.
  - intros s console_name. destruct (start_guard s) eqn:Hg.
    + rewrite (start_process_refused _ _ Hg). reflexivity.
    + rewrite (start_process_started _ _ Hg).
      cbn [output_files set_progress_value log_message].
      rewrite process_entries_output_files. reflexivity.
  - intros console_var s. unfold select_console.
    destruct (PyStr.truthy console_var); reflexivity.
  - intros chosen s. unfold browse_directory.
    destruct (PyStr.truthy chosen); [|reflexivity].
    cbn [selected_console set_directory_entry].
    destruct (selected_console s) as [c|]; [|reflexivity].
    destruct (PyStr.truthy c); reflexivity.
  - intros directory s. unfold get_game_titles.
    destruct (os_listdir env directory) as [[| |?]|?]; reflexivity.
Qed.

(** On the full device the report breaks off after its header line: the
    file is there, the error is logged, and nothing is recorded. *)
Example write_breaks_off_on_full_device :
  let s' := write_game_titles Sample.env "/roms/full" "NES" ["Sonic.zip"] init in
  disk s' !! "/roms/full/NES_2024-05-18.txt" = Some ("Console: NES" +:+ PyStr.nl)
  /\ output_files s' = ∅
  /\ open_buttons_enabled s' = false
  /\ log_text s'
     = [AttemptWrite "/roms/full/NES_2024-05-18.txt";
        ErrWriteUnexpected "/roms/full/NES_2024-05-18.txt"
          "[Errno 28] No space left on device"].
Proof. cbv zeta. repeat split. Qed.



(** * Further properties of the program *)

(** ** The registry *)

Module Registry_facts.

Lemma get_none_not_key (k : string) (d : list (string * string)) :
  Dict.get k d = None <-> ~ In k (Dict.keys d).
Proof.
  induction d as [|[k' v'] d IH]; cbn [Dict.get Dict.keys List.map fst In].
  - split; [intros _ []|reflexivity].
  - destruct (String.eqb_spec k k') as [->|Hne].
    + split; [discriminate|]. intros H. exfalso. apply H. left. reflexivity.
    + rewrite IH. unfold Dict.keys. split.
      * intros H [Heq|Hin]; [congruence|exact (H Hin)].
      * intros H Hin. apply H. right. exact Hin.
Qed.

Lemma get_some_key (k : string) (d : list (string * string)) :
  is_Some (Dict.get k d) <-> In k (Dict.keys d).
Proof.
  destruct (Dict.get k d) as [v|] eqn:E.
  - split; [intros _|intros _; eexists; reflexivity].
    destruct (in_dec string_dec k (Dict.keys d)) as [Hin|Hout]; [exact Hin|].
    apply get_none_not_key in Hout. congruence.
  - split; [intros [v Hv]; discriminate|].
    intros Hin. apply get_none_not_key in E. contradiction.
Qed.

Lemma keys_set_present (k v : string) (d : list (string * string)) :
  is_Some (Dict.get k d) -> Dict.keys (Dict.set k v d) = Dict.keys d.
Proof.
  induction d as [|[k' v'] d IH]; intros [w Hw]; [discriminate|].
  cbn [Dict.get Dict.set] in *. destruct (String.eqb k k'); [reflexivity|].
  cbn [Dict.keys List.map fst]. f_equal. apply IH. eexists. exact Hw.
Qed.

Lemma keys_set_absent (k v : string) (d : list (string * string)) :
  Dict.get k d = None -> Dict.keys (Dict.set k v d) = Dict.keys d ++ [k].
Proof.
  intros H. rewrite (Dict_facts.set_absent _ _ _ H).
  unfold Dict.keys. rewrite List.map_app. reflexivity.
Qed.

Lemma keys_set_in (k k' v : string) (d : list (string * string)) :
  In k' (Dict.keys (Dict.set k v d)) <-> k' = k \/ In k' (Dict.keys d).
Proof.
  destruct (Dict.get k d) as [w|] eqn:E.
  - rewrite keys_set_present by (eexists; exact E). split; [tauto|].
    intros [->|H]; [|exact H]. apply get_some_key. eexists. exact E.
  - rewrite (keys_set_absent _ _ _ E), in_app_iff.
    cbn [In]. split; [intros [H|[H|[]]]|intros [H|H]]; auto.
Qed.

Lemma keys_set_nodup (k v : string) (d : list (string * string)) :
  NoDup (Dict.keys d) -> NoDup (Dict.keys (Dict.set k v d)).
Proof.
  intros Hnd. destruct (Dict.get k d) as [w|] eqn:E.
  - rewrite keys_set_present by (eexists; exact E). exact Hnd.
  - rewrite (keys_set_absent _ _ _ E).
    apply NoDup_app. split; [exact Hnd|]. split.
    + intros x Hx Hin. apply list_elem_of_In in Hin.
      cbn [In] in Hin. destruct Hin as [<-|[]].
      apply get_none_not_key in E. apply E. apply list_elem_of_In. exact Hx.
    + apply NoDup_singleton.
Qed.

Lemma get_set_lookup (k k' v : string) (d : list (string * string)) :
  Dict.get k' (Dict.set k v d)
  = if String.eqb k' k then Some v else Dict.get k' d.
Proof.
  destruct (String.eqb_spec k' k) as [->|Hne].
  - apply Dict_facts.get_set.
  - apply Dict_facts.get_set_other. congruence.
Qed.

Lemma in_item_key (item : string * string) (d : list (string * string)) :
  In item d -> is_Some (Dict.get (fst item) d).
Proof.
  intros H. apply get_some_key. unfold Dict.keys. apply in_map, H.
Qed.

End Registry_facts.

Lemma browse_directory_entries (chosen console_name : string) (s : extractor) :
  PyStr.truthy chosen = true ->
  selected_console s = Some console_name ->
  PyStr.truthy console_name = true ->
  browse_directory chosen s
  = log_message (SelectedDirectory console_name chosen)
      (set_console_entries
         (Dict.set console_name chosen (console_entries s))
         (set_directory_entry chosen s)).
Proof.
  intros Hd Hsel Hc. unfold browse_directory. rewrite Hd.
  cbn [selected_console set_directory_entry]. rewrite Hsel, Hc. reflexivity.
Qed.

(** X1. Choosing a directory while a console is selected stores it for
    that console and for no other; a console that is already in the
    registry keeps its place, so the order in which the run visits the
    consoles is the order in which they were first selected. Reports
    and files are not touched. *)
Theorem browse_directory_sets_selected_console (chosen console_name : string)
    (s : extractor) :
  PyStr.truthy chosen = true ->
  selected_console s = Some console_name ->
  PyStr.truthy console_name = true ->
  let s' := browse_directory chosen s in
  Dict.get console_name (console_entries s') = Some chosen
  /\ (forall other, other <> console_name ->
        Dict.get other (console_entries s')
        = Dict.get other (console_entries s))
  /\ (is_Some (Dict.get console_name (console_entries s)) ->
      Dict.keys (console_entries s') = Dict.keys (console_entries s))
  /\ selected_console s' = Some console_name
  /\ directory_entry s' = chosen
  /\ output_files s' = output_files s /\ disk s' = disk s.
Proof.
  intros Hd Hsel Hc s'. subst s'.
  rewrite (browse_directory_entries _ _ _ Hd Hsel Hc).
  cbn [console_entries selected_console directory_entry output_files disk
         log_message set_console_entries set_directory_entry].
  split; [apply Dict_facts.get_set|].
  split; [intros other Hne; apply Dict_facts.get_set_other; congruence|].
  split; [apply Registry_facts.keys_set_present|].
  repeat split. exact Hsel.
Qed.

(** Moving the Xbox of the two-console session to another directory. *)
Lemma browse_directory_sets_selected_console_sample :
  selected_console Sample.two_consoles = Some "Xbox"
  /\ console_entries (browse_directory "/roms/nes" Sample.two_consoles)
     = [("Atari 2600", ""); ("Xbox", "/roms/nes")].
Proof.
  split; [reflexivity|].
  destruct (browse_directory_sets_selected_console "/roms/nes" "Xbox"
              Sample.two_consoles eq_refl eq_refl eq_refl) as (Hget & _).
  reflexivity.
Defined.

(** X2. Selecting a console, whichever and however often, never changes
    a directory the registry already holds, for that console or any
    other; the only lookup that changes is that of a new console, which
    becomes the empty string. Selecting the same console twice in a row
    leaves the registry as one selection does. With an empty combobox
    value the registry and the selection stay as they are. *)
Theorem select_console_keeps_directories (console_var : string) (s : extractor) :
  let s' := select_console console_var s in
  (forall k,
     Dict.get k (console_entries s')
     = match Dict.get k (console_entries s) with
       | Some d => Some d
       | None =>
           if String.eqb k console_var && PyStr.truthy console_var
           then Some "" else None
       end)
  /\ console_entries (select_console console_var s') = console_entries s'
  /\ (PyStr.truthy console_var = false ->
      console_entries s' = console_entries s
      /\ selected_console s' = selected_console s)
  /\ output_files s' = output_files s /\ disk s' = disk s.
Proof.
  intros s'. subst s'. destruct (PyStr.truthy console_var) eqn:Ht.
  - assert (Hself :
      Dict.get console_var (console_entries (select_console console_var s))
      = Some (default "" (Dict.get console_var (console_entries s)))).
    { rewrite (select_console_entries _ _ Ht). apply Dict_facts.get_set. }
    split; [|split; [|split]].
    + intros k. rewrite (select_console_entries _ _ Ht).
      rewrite Registry_facts.get_set_lookup.
      destruct (String.eqb_spec k console_var) as [->|Hne].
      * destruct (Dict.get console_var (console_entries s)); reflexivity.
      * destruct (Dict.get k (console_entries s)); reflexivity.
    + rewrite (select_console_entries _ (select_console console_var s) Ht).
      rewrite Hself. apply Dict_facts.set_same. exact Hself.
    + discriminate.
    + unfold select_console. rewrite Ht. split; reflexivity.
  - unfold select_console. rewrite Ht.
    cbn [console_entries selected_console output_files disk log_message
           showinfo].
    split; [|split; [|split]]; try (split; reflexivity); try reflexivity.
    intros k. rewrite andb_false_r.
    destruct (Dict.get k (console_entries s)); reflexivity.
Qed.

(** ** What every state of the window satisfies *)

Lemma process_entry_buttons (env : os_env) (total : nat) (s : extractor)
    (item : string * string) :
  open_buttons_enabled (process_entry env total s item)
  = entry_writes env item || open_buttons_enabled s.
Proof. by_cases_of_entry env item; reflexivity. Qed.

Lemma process_entry_records (env : os_env) (total : nat)
    (registry : list (string * string)) (s : extractor)
    (item : string * string) :
  is_Some (Dict.get (fst item) registry) ->
  records_ok registry s ->
  records_ok registry (process_entry env total s item).
Proof.
  intros Hkey [Hrec Hbtn]. unfold records_ok.
  rewrite process_entry_output_files, process_entry_disk,
    process_entry_buttons.
  assert (Hdisk : forall p,
    is_Some (disk s !! p) ->
    is_Some (match entry_leaves env item with
             | Some text =>
                 <[report_file_path env (snd item) (fst item) := text]>
                   (disk s)
             | None => disk s
             end !! p)).
  { intros p Hp. destruct (entry_leaves env item) as [text|]; [|exact Hp].
    destruct (decide (report_file_path env (snd item) (fst item) = p))
      as [<-|Hne].
    - rewrite lookup_insert_eq. eexists. reflexivity.
    - rewrite lookup_insert_ne by exact Hne. exact Hp. }
  destruct (entry_writes env item) eqn:Hw; cbn [orb].
  - split.
    + intros c p Hlook.
      destruct (decide (fst item = c)) as [<-|Hne].
      * rewrite lookup_insert_eq in Hlook. injection Hlook as <-.
        split; [exact Hkey|]. rewrite (entry_writes_leaves _ _ Hw).
        rewrite lookup_insert_eq. eexists. reflexivity.
      * rewrite lookup_insert_ne in Hlook by exact Hne.
        destruct (Hrec c p Hlook) as [Hc Hp]. split; [exact Hc|].
        apply Hdisk, Hp.
    + split; [intros _|reflexivity]. apply insert_non_empty.
  - split; [|exact Hbtn].
    intros c p Hlook. destruct (Hrec c p Hlook) as [Hc Hp].
    split; [exact Hc|apply Hdisk, Hp].
Qed.

Lemma process_entries_records (env : os_env) (total : nat)
    (registry items : list (string * string)) (s : extractor) :
  (forall item, In item items -> is_Some (Dict.get (fst item) registry)) ->
  records_ok registry s ->
  records_ok registry (process_entries env total items s).
Proof.
  revert s. induction items as [|item rest IH]; intros s Hkeys Hok;
    [exact Hok|].
  rewrite process_entries_cons. apply IH.
  - intros it Hin. apply Hkeys. right. exact Hin.
  - apply process_entry_records; [|exact Hok]. apply Hkeys. left. reflexivity.
Qed.

Lemma start_process_registry (env : os_env) (s : extractor) :
  console_entries (start_process env s) = console_entries s
  /\ selected_console (start_process env s) = selected_console s.
Proof.
  destruct (start_guard s) eqn:Hg.
  - rewrite (start_process_refused _ _ Hg). split; reflexivity.
  - rewrite (start_process_started _ _ Hg).
    cbn [console_entries selected_console set_progress_value log_message].
    destruct (process_entries_registry env (length (console_entries s))
                (console_entries s) (run_start s)) as [-> ->].
    split; reflexivity.
Qed.

Lemma start_process_records (env : os_env) (s : extractor) :
  records_ok (console_entries s) s ->
  records_ok (console_entries s) (start_process env s).
Proof.
  intros Hok. destruct (start_guard s) eqn:Hg.
  - rewrite (start_process_refused _ _ Hg). exact Hok.
  - rewrite (start_process_started _ _ Hg).
    pose proof (process_entries_records env (length (console_entries s))
                  (console_entries s) (console_entries s) (run_start s)
                  (fun item => Registry_facts.in_item_key item _) Hok) as H.
    exact H.
Qed.

Lemma well_formed_init : well_formed init.
Proof.
  unfold well_formed. cbn.
  split; [constructor|]. split; [intros c []|]. split; [reflexivity|].
  split.
  - intros c p H. rewrite lookup_empty in H. discriminate.
  - split; [discriminate|]. intros H. exfalso. apply H. reflexivity.
Qed.

Lemma well_formed_set (k v : string) (s s' : extractor) :
  well_formed s ->
  PyStr.truthy k = true ->
  console_entries s' = Dict.set k v (console_entries s) ->
  selected_console s' = Some k ->
  output_files s' = output_files s -> disk s' = disk s ->
  open_buttons_enabled s' = open_buttons_enabled s ->
  well_formed s'.
Proof.
  intros (Hnd & Htr & Hsel & Hrec & Hbtn) Hk He Hs Ho Hd Hb.
  unfold well_formed. rewrite He, Hs, Ho, Hd, Hb.
  split; [apply Registry_facts.keys_set_nodup, Hnd|].
  split.
  { intros c Hc. apply Registry_facts.keys_set_in in Hc as [->|Hc];
      [exact Hk|apply Htr, Hc]. }
  split.
  { split; [exact Hk|]. rewrite Dict_facts.get_set. eexists. reflexivity. }
  split; [|exact Hbtn].
  intros c p Hlook. destruct (Hrec c p Hlook) as [Hc Hp]. split; [|exact Hp].
  apply Registry_facts.get_some_key, Registry_facts.keys_set_in. right.
  apply Registry_facts.get_some_key, Hc.
Qed.

Lemma well_formed_step (s : extractor) (a : action) :
  well_formed s -> well_formed (step s a).
Proof.
  intros Hwf. destruct a as [console_var|chosen|env| |]; cbn [step];
    try exact Hwf.
  - destruct (PyStr.truthy console_var) eqn:Ht.
    + apply (well_formed_set console_var
               (default "" (Dict.get console_var (console_entries s))) s);
        try exact Hwf; try exact Ht;
        unfold select_console; rewrite Ht; reflexivity.
    + unfold select_console. rewrite Ht. exact Hwf.
  - destruct (PyStr.truthy chosen) eqn:Hd;
      [|unfold browse_directory; rewrite Hd; exact Hwf].
    destruct (selected_console s) as [c|] eqn:Hsel.
    + pose proof Hwf as (_ & _ & Hc & _). rewrite Hsel in Hc.
      destruct Hc as [Hc _].
      apply (well_formed_set c chosen s); try exact Hwf; try exact Hc;
        rewrite (browse_directory_entries _ _ _ Hd Hsel Hc);
        first [reflexivity | exact Hsel].
    + unfold browse_directory. rewrite Hd.
      cbn [selected_console set_directory_entry]. rewrite Hsel.
      destruct Hwf as (Hnd & Htr & Hs & Hrec & Hbtn).
      unfold well_formed.
      cbn [console_entries selected_console output_files disk
             open_buttons_enabled log_message showinfo set_directory_entry].
      rewrite Hsel in *.
      split; [exact Hnd|]. split; [exact Htr|]. split; [exact Hs|].
      split; [exact Hrec|exact Hbtn].
  - destruct Hwf as (Hnd & Htr & Hsel & Hrec & Hbtn).
    destruct (start_process_registry env s) as [He Hs].
    destruct (start_process_records env s (conj Hrec Hbtn)) as [Hrec' Hbtn'].
    unfold well_formed. rewrite He, Hs.
    split; [exact Hnd|]. split; [exact Htr|]. split; [exact Hsel|].
    split; [exact Hrec'|exact Hbtn'].
Qed.

Lemma well_formed_run (acts : list action) (s : extractor) :
  well_formed s -> well_formed (run_actions acts s).
Proof.
  revert s. induction acts as [|a acts IH]; intros s Hwf; [exact Hwf|].
  cbn [run_actions fold_left]. apply IH, well_formed_step, Hwf.
Qed.

(** X3. Whatever the user clicks, starting from the fresh window: the
    registry has no console twice and no console with an empty name;
    the selected console, if any, is in the registry, and the registry
    is empty exactly when no console is selected; every recorded report
    belongs to a console of the registry and is a file the program
    wrote; the two "open" buttons are enabled exactly when some report
    is recorded. So the run is refused exactly when no console is
    selected or the selected console still has the empty directory, and
    what "Open Outcome File" opens is a file the program wrote. *)
Theorem window_states_well_formed (acts : list action) :
  let s := run_actions acts init in
  well_formed s
  /\ (console_entries s = [] <-> selected_console s = None)
  /\ (start_guard s = true <->
      selected_console s = None
      \/ exists c, selected_console s = Some c
                   /\ Dict.get c (console_entries s) = Some "")
  /\ (forall p, open_file s = Some p -> is_Some (disk s !! p)).
Proof.
  intros s.
  assert (Hwf : well_formed s) by (apply well_formed_run, well_formed_init).
  split; [exact Hwf|].
  destruct Hwf as (Hnd & Htr & Hsel & Hrec & Hbtn).
  split; [|split].
  - destruct (selected_console s) as [c|].
    + destruct Hsel as [_ [d Hd]]. split; [|discriminate].
      intros He. rewrite He in Hd. discriminate.
    + split; [reflexivity|intros _; exact Hsel].
  - unfold start_guard. destruct (selected_console s) as [c|].
    + destruct Hsel as [Hc [d Hd]]. rewrite Hc, Hd. cbn [negb orb]. split.
      * intros Hg. right. exists c. split; [reflexivity|].
        destruct d; [exact Hd|discriminate].
      * intros [H|(c' & Hc' & Hget)]; [discriminate|].
        injection Hc' as <-. rewrite Hd in Hget. injection Hget as ->.
        reflexivity.
    + split; [intros _; left; reflexivity|reflexivity].
  - intros p. unfold open_file. destruct (selected_console s) as [c|];
      [|discriminate].
    destruct (PyStr.truthy c); [|discriminate].
    destruct (output_files s !! c) as [q|] eqn:Hq; [|discriminate].
    intros Hp. injection Hp as <-. exact (proj2 (Hrec c q Hq)).
Qed.

(** ** What the run writes *)

Lemma os_path_join_suffix (a b : string) :
  exists pre, os_path_join a b = pre +:+ b.
Proof.
  unfold os_path_join. destruct (PyStr.startswith b "/").
  - exists "". reflexivity.
  - destruct (negb (PyStr.truthy a) || PyStr.endswith a "/").
    + exists a. reflexivity.
    + exists (a +:+ "/"). rewrite append_assoc. reflexivity.
Qed.

Lemma report_file_path_txt (env : os_env) (directory console_name : string) :
  PyStr.endswith (report_file_path env directory console_name) ".txt" = true.
Proof.
  apply endswith_spec. unfold report_file_path, report_file_name.
  destruct (os_path_join_suffix directory
              (console_name +:+ "_" +:+ strftime_Ymd (env_now env) +:+ ".txt"))
    as [pre ->].
  exists (pre +:+ console_name +:+ "_" +:+ strftime_Ymd (env_now env)).
  rewrite !append_assoc. reflexivity.
Qed.

Lemma process_entries_disk_lookup (env : os_env) (total : nat)
    (items : list (string * string)) (s : extractor) (path : string) :
  disk (process_entries env total items s) !! path
  = match last_written env items path with
    | Some t => Some t
    | None => disk s !! path
    end.
Proof.
  revert s. induction items as [|item rest IH]; intros s; [reflexivity|].
  rewrite process_entries_cons, IH. cbn [last_written].
  destruct (last_written env rest path); [reflexivity|].
  rewrite process_entry_disk.
  destruct (String.eqb_spec (report_file_path env (snd item) (fst item)) path)
    as [Heq|Hne];
    destruct (entry_leaves env item) as [text|]; try reflexivity.
  - rewrite Heq. apply lookup_insert_eq.
  - apply lookup_insert_ne, Hne.
Qed.

Lemma last_written_txt (env : os_env) (items : list (string * string))
    (path t : string) :
  last_written env items path = Some t -> PyStr.endswith path ".txt" = true.
Proof.
  revert t. induction items as [|item rest IH]; intros t; [discriminate|].
  cbn [last_written]. destruct (last_written env rest path) as [t'|].
  - intros _. apply (IH t'). reflexivity.
  - destruct (String.eqb_spec (report_file_path env (snd item) (fst item)) path)
      as [<-|Hne]; [|discriminate].
    intros _. apply report_file_path_txt.
Qed.

Lemma start_process_disk_lookup (env : os_env) (s : extractor) (path : string) :
  disk (start_process env s) !! path
  = if start_guard s then disk s !! path
    else match last_written env (console_entries s) path with
         | Some t => Some t
         | None => disk s !! path
         end.
Proof.
  destruct (start_guard s) eqn:Hg.
  - rewrite (start_process_refused _ _ Hg). reflexivity.
  - rewrite (start_process_started _ _ Hg).
    cbn [disk set_progress_value log_message].
    rewrite process_entries_disk_lookup. reflexivity.
Qed.

Lemma start_process_output_lookup (env : os_env) (s : extractor)
    (console_name : string) :
  output_files (start_process env s) !! console_name
  = if start_guard s then output_files s !! console_name
    else match last_report env (console_entries s) console_name with
         | Some p => Some p
         | None => output_files s !! console_name
         end.
Proof.
  destruct (start_guard s) eqn:Hg.
  - rewrite (start_process_refused _ _ Hg). reflexivity.
  - rewrite (start_process_started _ _ Hg).
    cbn [output_files set_progress_value log_message].
    rewrite process_entries_output_files. reflexivity.
Qed.

Lemma step_disk_lookup (s : extractor) (a : action) (path : string) :
  (PyStr.endswith path ".txt" = false ->
   disk (step s a) !! path = disk s !! path)
  /\ (is_Some (disk s !! path) -> is_Some (disk (step s a) !! path)).
Proof.
  destruct a as [console_var|chosen|env| |]; cbn [step].
  - unfold select_console. destruct (PyStr.truthy console_var);
      split; intros H; first [reflexivity | exact H].
  - unfold browse_directory. destruct (PyStr.truthy chosen);
      [|split; intros H; first [reflexivity | exact H]].
    cbn [selected_console set_directory_entry].
    destruct (selected_console s) as [c|];
      [destruct (PyStr.truthy c)|];
      split; intros H; first [reflexivity | exact H].
  - rewrite start_process_disk_lookup.
    destruct (start_guard s);
      [split; intros H; first [reflexivity | exact H]|].
    destruct (last_written env (console_entries s) path) as [t|] eqn:Hw.
    + split.
      * intros Hno. apply last_written_txt in Hw. congruence.
      * intros _. eexists. reflexivity.
    + split; intros H; first [reflexivity | exact H].
  - split; intros H; first [reflexivity | exact H].
  - split; intros H; first [reflexivity | exact H].
Qed.

(** X4. Whatever the user clicks, in whatever state, and whatever the
    platform answers: a file whose name does not end in [.txt] is never
    created or changed (the [.zip] files are safe), and no file the
    state holds ever disappears. *)
Theorem only_txt_files_are_written (acts : list action) (s : extractor)
    (path : string) :
  (PyStr.endswith path ".txt" = false ->
   disk (run_actions acts s) !! path = disk s !! path)
  /\ (is_Some (disk s !! path) ->
      is_Some (disk (run_actions acts s) !! path)).
Proof.
  revert s. induction acts as [|a acts IH]; intros s.
  - split; intros H; first [reflexivity | exact H].
  - cbn [run_actions fold_left].
    destruct (IH (step s a)) as [IH1 IH2].
    destruct (step_disk_lookup s a path) as [H1 H2]. split.
    + intros Hno. unfold run_actions in IH1. rewrite (IH1 Hno). exact (H1 Hno).
    + intros Hs. apply IH2, H2, Hs.
Qed.

Lemma start_guard_ext (s s' : extractor) :
  console_entries s' = console_entries s ->
  selected_console s' = selected_console s ->
  start_guard s' = start_guard s.
Proof. intros He Hs. unfold start_guard. rewrite He, Hs. reflexivity. Qed.

(** X5. Running twice in a row on an unchanged platform leaves the
    files and the records exactly as one run does: the second run
    overwrites each report with the same text. *)
Theorem second_run_changes_nothing (env : os_env) (s : extractor) :
  let s1 := start_process env s in
  let s2 := start_process env s1 in
  disk s2 = disk s1
  /\ output_files s2 = output_files s1
  /\ console_entries s2 = console_entries s
  /\ open_file s2 = open_file s1.
Proof.
  intros s1 s2.
  destruct (start_process_registry env s) as [He1 Hs1].
  destruct (start_process_registry env s1) as [He2 Hs2].
  fold s1 in He1, Hs1. fold s2 in He2, Hs2.
  pose proof (start_guard_ext s s1 He1 Hs1) as Hg.
  assert (Hd : disk s2 = disk s1).
  { apply map_eq. intros path. subst s2.
    rewrite start_process_disk_lookup, Hg, He1.
    destruct (start_guard s) eqn:Hgs; [reflexivity|].
    destruct (last_written env (console_entries s) path) as [t|] eqn:Hw;
      [|reflexivity].
    subst s1. rewrite start_process_disk_lookup, Hgs, Hw. reflexivity. }
  assert (Ho : output_files s2 = output_files s1).
  { apply map_eq. intros c. subst s2.
    rewrite start_process_output_lookup, Hg, He1.
    destruct (start_guard s) eqn:Hgs; [reflexivity|].
    destruct (last_report env (console_entries s) c) as [p|] eqn:Hr;
      [|reflexivity].
    subst s1. rewrite start_process_output_lookup, Hgs, Hr. reflexivity. }
  split; [exact Hd|]. split; [exact Ho|].
  split; [rewrite He2; exact He1|].
  unfold open_file. rewrite Hs2, Ho. reflexivity.
Qed.

(** ** Reports and titles do not mix *)

Lemma length_append (a b : string) :
  String.length (a +:+ b) = (String.length a + String.length b)%nat.
Proof.
  induction a as [|c a IH]; [reflexivity|].
  rewrite append_cons. cbn [String.length]. rewrite IH. reflexivity.
Qed.

Lemma eqb_length (s t : string) :
  String.length s <> String.length t -> String.eqb s t = false.
Proof.
  intros H. apply String.eqb_neq. intros ->. apply H. reflexivity.
Qed.

Lemma endswith_short (s suffix : string) :
  (String.length s < String.length suffix)%nat ->
  PyStr.endswith s suffix = false.
Proof.
  induction s as [|c s IH]; intros H; rewrite endswith_unfold;
    rewrite eqb_length by lia; [reflexivity|].
  apply IH. cbn [String.length] in H. lia.
Qed.

Lemma endswith_same_length (stem a b : string) :
  String.length a = String.length b ->
  PyStr.endswith (stem +:+ a) b = String.eqb a b.
Proof.
  intros Hlen. induction stem as [|c stem IH].
  - rewrite append_nil_l, endswith_unfold.
    destruct (String.eqb a b) eqn:E; [reflexivity|].
    destruct a as [|x a]; [reflexivity|].
    apply endswith_short. cbn [String.length] in Hlen. lia.
  - rewrite append_cons, endswith_unfold, eqb_length; [exact IH|].
    cbn [String.length]. rewrite length_append. lia.
Qed.

Lemma report_file_name_not_zip (env : os_env) (console_name : string) :
  is_zip (report_file_name env console_name) = false.
Proof.
  unfold is_zip, report_file_name.
  replace (console_name +:+ "_" +:+ strftime_Ymd (env_now env) +:+ ".txt")
    with ((console_name +:+ "_" +:+ strftime_Ymd (env_now env)) +:+ ".txt")
    by (rewrite !append_assoc; reflexivity).
  rewrite endswith_same_length by reflexivity. reflexivity.
Qed.

(** X6. The name of a report, for any console and any date, does not
    end in [.zip]: no scan ever returns a report as a game title, and a
    listing gives the same titles with or without the reports that
    earlier runs left in the directory. *)
Theorem report_is_never_a_title (env : os_env) (console_name : string) :
  is_zip (report_file_name env console_name) = false
  /\ (forall env' directory s,
        ~ In (report_file_name env console_name)
             (fst (get_game_titles env' directory s)))
  /\ (forall before after,
        scan_loop (before ++ report_file_name env console_name :: after) []
        = scan_loop (before ++ after) []).
Proof.
  pose proof (report_file_name_not_zip env console_name) as Hz.
  split; [exact Hz|]. split.
  - intros env' directory s. rewrite get_game_titles_titles_of.
    unfold titles_of. destruct (env_scandir env' directory) as [e|ents];
      [intros []|].
    intros Hin. apply filter_In in Hin as [_ Hin]. congruence.
  - intros before after. rewrite !scan_loop_filter.
    cbn [List.app]. rewrite !List.filter_app. cbn [List.filter].
    rewrite Hz. reflexivity.
Qed.

(** The session has two entries; after the first the bar is below 100. *)
Lemma after_entries_below_100_sample :
  (1 < length (console_entries Session.both_valid))%nat
  /\ (progress_value (after_entries Sample.env 1 Session.both_valid) < 100)%Q.
Proof.
  assert (H : (1 < length (console_entries Session.both_valid))%nat)
    by (cbn; lia).
  split; [exact H|].
  exact (after_entries_below_100 Sample.env 1 Session.both_valid H).
Defined.

(** ** The two "open" buttons after a run *)

Lemma last_report_absent (env : os_env) (items : list (string * string))
    (console_name : string) :
  ~ In console_name (Dict.keys items) ->
  last_report env items console_name = None.
Proof.
  induction items as [|item rest IH]; intros H; [reflexivity|].
  cbn [last_report]. rewrite IH by (intros Hin; apply H; right; exact Hin).
  destruct (String.eqb_spec (fst item) console_name) as [Heq|Hne];
    [|reflexivity].
  exfalso. apply H. left. exact Heq.
Qed.

Lemma last_report_of_entry (env : os_env) (items : list (string * string))
    (console_name directory : string) :
  NoDup (Dict.keys items) ->
  Dict.get console_name items = Some directory ->
  last_report env items console_name
  = if entry_writes env (console_name, directory)
    then Some (report_file_path env directory console_name) else None.
Proof.
  induction items as [|[k v] rest IH]; intros Hnd Hget; [discriminate|].
  cbn [Dict.keys List.map fst] in Hnd. apply NoDup_cons in Hnd as [Hk Hnd].
  cbn [Dict.get] in Hget. cbn [last_report fst snd].
  destruct (String.eqb_spec console_name k) as [->|Hne].
  - injection Hget as ->.
    rewrite last_report_absent
      by (intros Hin; apply Hk, list_elem_of_In; exact Hin).
    rewrite String.eqb_refl. cbn [andb].
    destruct (entry_writes env (k, directory)); reflexivity.
  - rewrite (IH Hnd Hget).
    destruct (entry_writes env (console_name, directory)); [reflexivity|].
    destruct (String.eqb_spec k console_name) as [Heq|_]; [congruence|].
    reflexivity.
Qed.

Lemma get_in (k v : string) (d : list (string * string)) :
  Dict.get k d = Some v -> In (k, v) d.
Proof.
  induction d as [|[k' v'] d IH]; [discriminate|]. cbn [Dict.get].
  destruct (String.eqb_spec k k') as [->|Hne].
  - intros H. injection H as ->. left. reflexivity.
  - intros H. right. apply IH, H.
Qed.

Lemma last_written_of_entry (env : os_env) (items : list (string * string))
    (item : string * string) :
  In item items -> entry_writes env item = true ->
  is_Some (last_written env items
             (report_file_path env (snd item) (fst item))).
Proof.
  induction items as [|it rest IH]; intros Hin Hw; [destruct Hin|].
  cbn [last_written].
  destruct (last_written env rest (report_file_path env (snd item) (fst item)))
    as [t|] eqn:E; [eexists; reflexivity|].
  destruct Hin as [->|Hin].
  - rewrite String.eqb_refl, (entry_writes_leaves _ _ Hw). eexists. reflexivity.
  - destruct (IH Hin Hw) as [t Ht]. discriminate.
Qed.

(** X8. After a run (one the guard lets through, in a registry without
    repeated consoles): if the run wrote the report of the selected
    console, "Open Outcome File" opens that report, which is on disk,
    and "Go to Outcome Folder" opens its [os.path.dirname]; if it wrote
    none for it, both buttons do what they did before the run, so they
    open the report of an earlier run or nothing. *)
Theorem open_buttons_after_run (env : os_env) (s : extractor)
    (console_name directory : string) :
  NoDup (Dict.keys (console_entries s)) ->
  selected_console s = Some console_name ->
  PyStr.truthy console_name = true ->
  Dict.get console_name (console_entries s) = Some directory ->
  PyStr.truthy directory = true ->
  let s' := start_process env s in
  let file_path := report_file_path env directory console_name in
  if entry_writes env (console_name, directory)
  then open_file s' = Some file_path
       /\ open_folder s' = Some (os_path_dirname file_path)
       /\ is_Some (disk s' !! file_path)
  else open_file s' = open_file s /\ open_folder s' = open_folder s.
Proof.
  intros Hnd Hsel Hc Hget Hd s' file_path. subst s' file_path.
  assert (Hg : start_guard s = false).
  { unfold start_guard. rewrite Hsel, Hc, Hget, Hd. reflexivity. }
  destruct (start_process_registry env s) as [_ Hs'].
  pose proof (start_process_output_lookup env s console_name) as Hout.
  rewrite Hg, (last_report_of_entry _ _ _ _ Hnd Hget) in Hout.
  unfold open_file, open_folder. rewrite Hs', Hsel, Hc, Hout.
  destruct (entry_writes env (console_name, directory)) eqn:Hw.
  - split; [reflexivity|]. split; [reflexivity|].
    rewrite start_process_disk_lookup, Hg.
    destruct (last_written_of_entry env (console_entries s)
                (console_name, directory) (get_in _ _ _ Hget) Hw) as [t Ht].
    cbn [fst snd] in Ht. rewrite Ht. eexists. reflexivity.
  - split; reflexivity.
Qed.

(** The session's last run wrote the Xbox report; the button opens it. *)
Lemma open_buttons_after_run_sample :
  selected_console Session.both_valid = Some "Xbox"
  /\ entry_writes Sample.env ("Xbox", "/roms/xbox") = true
  /\ open_file (start_process Sample.env Session.both_valid)
     = Some "/roms/xbox/Xbox_2024-05-18.txt".
Proof.
  split; [reflexivity|]. split; [reflexivity|].
  assert (Hnd : NoDup (Dict.keys (console_entries Session.both_valid))).
  { cbn. apply NoDup_cons. split; [|apply NoDup_singleton].
    intros Hin. apply list_elem_of_In in Hin. destruct Hin as [H|[]].
    discriminate H. }
  pose proof (open_buttons_after_run Sample.env Session.both_valid
                "Xbox" "/roms/xbox" Hnd eq_refl eq_refl eq_refl eq_refl) as H.
  cbv zeta in H.
  change (entry_writes Sample.env ("Xbox", "/roms/xbox")) with true in H.
  exact (proj1 H).
Defined.

(** ** The folder of a report is the scanned directory *)

Lemma no_slash_app (a b : string) :
  no_slash (a +:+ b) = no_slash a && no_slash b.
Proof.
  induction a as [|c a IH]; [reflexivity|].
  rewrite append_cons. cbn [no_slash]. rewrite IH, andb_assoc. reflexivity.
Qed.

Lemma digit_not_slash (n : nat) : Ascii.eqb (digit n) "/" = false.
Proof.
  unfold digit. pose proof (Nat.mod_upper_bound n 10) as Hlt.
  remember (n mod 10) as k eqn:Hk. clear Hk.
  do 10 (destruct k as [|k]; [reflexivity|]). lia.
Qed.

Lemma report_file_name_no_slash (env : os_env) (console_name : string) :
  no_slash console_name = true ->
  no_slash (report_file_name env console_name) = true.
Proof.
  intros Hc. unfold report_file_name. rewrite !no_slash_app, Hc.
  unfold strftime_Ymd, pad4, pad2. rewrite !append_cons, !append_nil_l.
  cbn [no_slash]. rewrite !digit_not_slash. reflexivity.
Qed.

Lemma no_slash_startswith (f : string) :
  no_slash f = true -> PyStr.startswith f "/" = false.
Proof.
  unfold PyStr.startswith. destruct f as [|c f]; [reflexivity|].
  cbn [no_slash String.prefix]. intros H. apply andb_prop in H as [Hc _].
  apply negb_true_iff, Ascii.eqb_neq in Hc.
  destruct (ascii_dec "/" c) as [Heq|_]; [congruence|reflexivity].
Qed.

Lemma str_rfind_no_slash (f : string) :
  no_slash f = true -> str_rfind f "/" = (-1)%Z.
Proof.
  induction f as [|c f IH]; [reflexivity|]. cbn [no_slash str_rfind].
  intros H. apply andb_prop in H as [Hc Hf]. rewrite (IH Hf).
  apply negb_true_iff in Hc. rewrite Hc. reflexivity.
Qed.

Lemma str_rfind_last_slash (d f : string) :
  no_slash f = true ->
  str_rfind (d +:+ "/" +:+ f) "/" = Z.of_nat (String.length d).
Proof.
  intros Hf. induction d as [|c d IH].
  - rewrite append_nil_l, append_cons, append_nil_l. cbn [str_rfind].
    rewrite (str_rfind_no_slash _ Hf). reflexivity.
  - rewrite append_cons. cbn [str_rfind String.length]. rewrite IH.
    destruct (0 <=? Z.of_nat (String.length d))%Z eqn:E; [lia|].
    apply Z.leb_gt in E. lia.
Qed.

Lemma substring_prefix (d rest : string) :
  String.substring 0 (String.length d) (d +:+ rest) = d.
Proof.
  induction d as [|c d IH].
  - rewrite append_nil_l. destruct rest; reflexivity.
  - rewrite append_cons. cbn [String.length String.substring].
    rewrite IH. reflexivity.
Qed.

Lemma endswith_slash_cons (c : ascii) (d : string) :
  PyStr.truthy d = true ->
  PyStr.endswith (String c d) "/" = PyStr.endswith d "/".
Proof.
  intros Hd. rewrite (endswith_unfold (String c d)).
  destruct d as [|x d]; [discriminate|].
  destruct (String.eqb_spec (String c (String x d)) "/") as [H|_];
    [discriminate|reflexivity].
Qed.

Lemma str_rstrip_slash (d : string) :
  PyStr.endswith d "/" = false -> str_rstrip (d +:+ "/") "/" = d.
Proof.
  induction d as [|c d IH]; intros H; [reflexivity|].
  rewrite append_cons. cbn [str_rstrip].
  destruct d as [|x d].
  - rewrite append_nil_l. cbn [str_rstrip Ascii.eqb].
    destruct (Ascii.eqb_spec c "/") as [->|_]; [discriminate|reflexivity].
  - rewrite endswith_slash_cons in H by reflexivity. rewrite (IH H).
    reflexivity.
Qed.

Lemma not_all_slashes (d : string) :
  PyStr.truthy d = true -> PyStr.endswith d "/" = false ->
  forall n, String.eqb (d +:+ "/") (str_repeat "/" n) = false.
Proof.
  induction d as [|c d IH]; intros Hd Hend n; [discriminate|].
  apply String.eqb_neq. intros Heq. rewrite append_cons in Heq.
  destruct n as [|n]; [discriminate|]. cbn [str_repeat] in Heq.
  injection Heq as -> Heq. destruct d as [|x d].
  - discriminate.
  - rewrite endswith_slash_cons in Hend by reflexivity.
    specialize (IH eq_refl Hend n). apply String.eqb_neq in IH.
    apply IH. exact Heq.
Qed.

Lemma os_path_dirname_join (d f : string) :
  PyStr.truthy d = true -> PyStr.endswith d "/" = false ->
  no_slash f = true ->
  os_path_join d f = d +:+ "/" +:+ f
  /\ os_path_dirname (d +:+ "/" +:+ f) = d.
Proof.
  intros Hd Hend Hf. split.
  - unfold os_path_join. rewrite (no_slash_startswith _ Hf), Hd, Hend.
    reflexivity.
  - unfold os_path_dirname. rewrite (str_rfind_last_slash _ _ Hf).
    replace (Z.to_nat (Z.of_nat (String.length d) + 1))
      with (String.length (d +:+ "/"))
      by (rewrite length_append; cbn [String.length]; lia).
    replace (d +:+ "/" +:+ f) with ((d +:+ "/") +:+ f)
      by (rewrite append_assoc; reflexivity).
    rewrite substring_prefix, (not_all_slashes _ Hd Hend).
    destruct d as [|c d]; [discriminate|]. rewrite append_cons.
    cbn [PyStr.truthy andb negb]. rewrite <- append_cons.
    apply str_rstrip_slash, Hend.
Qed.

(** X9. For a directory chosen without a trailing [/] and a console
    name without [/] (every name of the catalogue), the report lies
    directly in the scanned directory: its path is the directory, a
    [/] and the report's name, and [os.path.dirname] of it, which is
    what "Go to Outcome Folder" opens, is the scanned directory. *)
Theorem report_folder_is_scanned_directory (env : os_env)
    (directory console_name : string) :
  PyStr.truthy directory = true ->
  PyStr.endswith directory "/" = false ->
  no_slash console_name = true ->
  report_file_path env directory console_name
  = directory +:+ "/" +:+ report_file_name env console_name
  /\ os_path_dirname (report_file_path env directory console_name)
     = directory
  /\ forallb no_slash popular_consoles = true.
Proof.
  intros Hd Hend Hc.
  destruct (os_path_dirname_join directory (report_file_name env console_name)
              Hd Hend (report_file_name_no_slash env _ Hc)) as [Hjoin Hdir].
  unfold report_file_path. rewrite Hjoin.
  split; [reflexivity|]. split; [exact Hdir|reflexivity].
Qed.

(** The NES report of the sample platform lies in [/roms/nes]. *)
Lemma report_folder_is_scanned_directory_sample :
  PyStr.endswith "/roms/nes" "/" = false
  /\ os_path_dirname
       (report_file_path Sample.env "/roms/nes"
          "Nintendo Entertainment System (NES)")
     = "/roms/nes".
Proof.
  split; [reflexivity|].
  exact (proj1 (proj2 (report_folder_is_scanned_directory Sample.env
                         "/roms/nes" "Nintendo Entertainment System (NES)"
                         eq_refl eq_refl eq_refl))).
Defined.

(** ** Every entry of the run says how it ended *)

(** X10. One round of the run's loop logs the [Processing] line and
    then, if it wrote the report, exactly the path it attempts and the
    line that the titles have been written, with no error line; if it
    wrote none, it logs no such line but an error line or the line
    that no titles were found, and it leaves the records as they were
    and every file other than its own report file untouched. The
    report file itself changes in such a round only when a write error
    is logged (the write broke off). No round logs more than one error
    line. *)
Theorem entry_outcome_is_logged (env : os_env) (total : nat) (s : extractor)
    (item : string * string) :
  let s' := process_entry env total s item in
  let p := report_file_path env (snd item) (fst item) in
  exists events,
    log_text s' = log_text s ++ Processing (fst item) (snd item) :: events
    /\ (length (List.filter is_error events) <= 1)%nat
    /\ if entry_writes env item
       then events = [AttemptWrite p; TitlesWritten p]
       else existsb is_written events = false
            /\ existsb (fun m => is_error m || is_no_titles m) events = true
            /\ output_files s' = output_files s
            /\ (forall q, q <> p -> disk s' !! q = disk s !! q)
            /\ (List.filter is_error events = [] -> disk s' = disk s).
Proof.
  intros s' p. subst s' p. exists (tl (entry_events env item)).
  rewrite process_entry_log, process_entry_disk, process_entry_output_files.
  split; [reflexivity|].
  unfold entry_events, entry_writes, entry_leaves, write_succeeds,
    scan_events, titles_of, write_events.
  destruct (os_path_exists env (snd item)); cbn [tl andb];
    [|split; [cbn; lia|repeat split]].
  destruct (env_scandir env (snd item)) as [[| |?]|ents];
    cbn [List.app list_error_event];
    try (split; [cbn; lia|repeat split]).
  destruct (List.filter is_zip (List.map d_name ents)) as [|t ts];
    [split; [cbn; lia|repeat split]|].
  destruct (env_write env (report_file_path env (snd item) (fst item)))
    as [[[| |?]|kept [| |?]]|];
    (split; [cbn; lia|]); repeat split;
    try (intros q Hq; apply lookup_insert_ne; congruence);
    cbn; discriminate.
Qed.

(** ** The width of the combobox *)

Lemma max_key_len_fold (rest : list string) (first : string) :
  let best :=
    fold_left
      (fun best name =>
         if (String.length best <? String.length name)%nat then name else best)
      rest first in
  (String.length first <= String.length best)%nat
  /\ (forall name, In name rest ->
                   (String.length name <= String.length best)%nat)
  /\ (best = first \/ In best rest).
Proof.
  revert first. induction rest as [|x rest IH]; intros first; cbn [fold_left].
  - split; [lia|]. split; [intros name []|left; reflexivity].
  - destruct (String.length first <? String.length x)%nat eqn:E.
    + apply Nat.ltb_lt in E. destruct (IH x) as (H1 & H2 & H3).
      split; [cbv zeta in *; lia|]. split.
      * intros name [<-|Hin]; [exact H1|exact (H2 name Hin)].
      * right. destruct H3 as [->|H3]; [left; reflexivity|right; exact H3].
    + apply Nat.ltb_ge in E. destruct (IH first) as (H1 & H2 & H3).
      split; [exact H1|]. split.
      * intros name [<-|Hin]; [cbv zeta in *; lia|exact (H2 name Hin)].
      * destruct H3 as [H3|H3]; [left; exact H3|right; right; exact H3].
Qed.

(** X11. The width [adjust_combobox_width] sets is the length of a
    name of the list and no name of the list is longer, so every
    console name fits into the combobox; this holds for any non-empty
    list of names, and for the catalogue the width is 42. On an empty
    list [max] raises. *)
Theorem adjust_combobox_width_fits (consoles : list string) :
  consoles <> [] ->
  exists width,
    adjust_combobox_width consoles = Some width
    /\ (forall name, In name consoles -> (String.length name <= width)%nat)
    /\ (exists name, In name consoles /\ String.length name = width)
    /\ adjust_combobox_width [] = None
    /\ adjust_combobox_width popular_consoles = Some 42%nat.
Proof.
  intros Hne. destruct consoles as [|first rest]; [congruence|].
  unfold adjust_combobox_width, max_key_len.
  destruct (max_key_len_fold rest first) as (H1 & H2 & H3). cbv zeta in *.
  eexists. split; [reflexivity|]. split; [|split; [|split; reflexivity]].
  - intros name [<-|Hin]; [exact H1|exact (H2 name Hin)].
  - eexists. split; [|reflexivity].
    destruct H3 as [->|H3]; [left; reflexivity|right; exact H3].
Qed.

(** The catalogue of the window. *)
Lemma adjust_combobox_width_fits_catalogue :
  popular_consoles <> []
  /\ forall name, In name popular_consoles -> (String.length name <= 42)%nat.
Proof.
  assert (Hne : popular_consoles <> []) by discriminate.
  split; [exact Hne|].
  destruct (adjust_combobox_width_fits popular_consoles Hne)
    as (width & Hw & Hfit & _).
  vm_compute in Hw. injection Hw as Hw. rewrite Hw. exact Hfit.
Defined.

(** The completion line itself. *)
Lemma completed_text_unique_sample :
  message_text (fun _ => "{}") ProcessCompleted = "Process completed."
  /\ ProcessCompleted = ProcessCompleted.
Proof.
  split; [reflexivity|].
  exact (completed_text_unique (fun _ => "{}") ProcessCompleted eq_refl).
Defined.

(** ** The handlers only add to the log and the dialogs *)

Lemma process_entry_dialogs (env : os_env) (total : nat) (s : extractor)
    (item : string * string) :
  dialogs (process_entry env total s item) = dialogs s.
Proof. by_cases_of_entry env item; reflexivity. Qed.

Lemma process_entries_dialogs (env : os_env) (total : nat)
    (items : list (string * string)) (s : extractor) :
  dialogs (process_entries env total items s) = dialogs s.
Proof.
  revert s. induction items as [|item rest IH]; intros s; [reflexivity|].
  rewrite process_entries_cons, IH. apply process_entry_dialogs.
Qed.

Lemma step_log_grows (s : extractor) (a : action) :
  (exists new, log_text (step s a) = log_text s ++ new)
  /\ (exists shown, dialogs (step s a) = dialogs s ++ shown).
Proof.
  destruct a as [console_var|chosen|env| |]; cbn [step].
  - unfold select_console. destruct (PyStr.truthy console_var);
      cbn [log_text dialogs log_message showinfo set_select_button_text
             set_console_entries set_selected_console];
      split; first [eexists; reflexivity | exists []; apply eq_sym, app_nil_r].
  - unfold browse_directory. destruct (PyStr.truthy chosen);
      [|split; exists []; apply eq_sym, app_nil_r].
    cbn [selected_console set_directory_entry].
    destruct (selected_console s) as [c|]; [destruct (PyStr.truthy c)|];
      cbn [log_text dialogs log_message showinfo set_console_entries
             set_directory_entry];
      split; first [eexists; reflexivity | exists []; apply eq_sym, app_nil_r].
  - destruct (start_guard s) eqn:Hg.
    + rewrite (start_process_refused _ _ Hg).
      cbn [log_text dialogs log_message showinfo start_refused].
      split; [|eexists; reflexivity].
      rewrite <- !app_assoc. eexists. reflexivity.
    + split; [rewrite (start_process_started_log _ _ Hg); eexists; reflexivity|].
      rewrite (start_process_started _ _ Hg).
      cbn [dialogs set_progress_value log_message].
      exists []. rewrite app_nil_r, process_entries_dialogs. reflexivity.
  - split; exists []; apply eq_sym, app_nil_r.
  - split; exists []; apply eq_sym, app_nil_r.
Qed.

(** X14. None of the program's own handlers (selecting a console,
    choosing a directory, starting the run, the two "open" buttons)
    removes or rewrites a line it has logged or a dialog it has shown:
    after any sequence of them the earlier log is still there, followed
    by the new lines, and likewise the dialogs. (What the user types
    into the log pane is not the program's doing and is not modelled.) *)
Theorem log_only_grows (acts : list action) (s : extractor) :
  (exists new, log_text (run_actions acts s) = log_text s ++ new)
  /\ (exists shown, dialogs (run_actions acts s) = dialogs s ++ shown).
Proof.
  revert s. induction acts as [|a acts IH]; intros s.
  - split; exists []; apply eq_sym, app_nil_r.
  - cbn [run_actions fold_left].
    destruct (IH (step s a)) as [[new Hn] [shown Hs]].
    destruct (step_log_grows s a) as [[new0 Hn0] [shown0 Hs0]].
    unfold run_actions in Hn, Hs. split.
    + exists (new0 ++ new). rewrite Hn, Hn0, app_assoc. reflexivity.
    + exists (shown0 ++ shown). rewrite Hs, Hs0, app_assoc. reflexivity.
Qed.

(** ** Consoles that share a directory *)

Lemma append_cancel_l (a x y : string) : a +:+ x = a +:+ y -> x = y.
Proof.
  induction a as [|c a IH]; [intros H; exact H|].
  rewrite !append_cons. intros H. injection H as H. apply IH, H.
Qed.

Lemma append_cancel_r (x y r : string) : x +:+ r = y +:+ r -> x = y.
Proof.
  revert y. induction x as [|c x IH]; intros y H.
  - destruct y as [|d y]; [reflexivity|exfalso].
    apply (f_equal String.length) in H.
    rewrite append_nil_l, length_append in H. cbn [String.length] in H. lia.
  - destruct y as [|d y].
    + exfalso. apply (f_equal String.length) in H.
      rewrite append_nil_l, length_append in H. cbn [String.length] in H. lia.
    + rewrite !append_cons in H. injection H as -> H.
      rewrite (IH y H). reflexivity.
Qed.

(** X15. Two different consoles that were given the same directory get
    different report files there, so neither run step overwrites the
    report of the other (console names not starting with [/], as all
    names of the catalogue). *)
Theorem consoles_sharing_a_directory_keep_their_reports (env : os_env)
    (directory console1 console2 : string) :
  PyStr.startswith console1 "/" = false ->
  PyStr.startswith console2 "/" = false ->
  report_file_path env directory console1
  = report_file_path env directory console2 ->
  console1 = console2.
Proof.
  intros H1 H2. unfold report_file_path, report_file_name, os_path_join.
  rewrite (startswith_slash_file_name console1 _ H1).
  rewrite (startswith_slash_file_name console2 _ H2).
  destruct (negb (PyStr.truthy directory) || PyStr.endswith directory "/");
    intros H; apply append_cancel_l in H;
    try apply (append_cancel_l "/") in H;
    apply append_cancel_r in H; exact H.
Qed.

(** Nintendo 64 and Nintendo DS both pointed at [/roms/nes]. *)
Lemma consoles_sharing_a_directory_keep_their_reports_sample :
  PyStr.startswith "Nintendo 64" "/" = false
  /\ report_file_path Sample.env "/roms/nes" "Nintendo 64"
     <> report_file_path Sample.env "/roms/nes" "Nintendo DS".
Proof.
  split; [reflexivity|]. intros H.
  pose proof (consoles_sharing_a_directory_keep_their_reports Sample.env
                "/roms/nes" "Nintendo 64" "Nintendo DS" eq_refl eq_refl H)
    as Heq.
  discriminate Heq.
Defined.

(** ** The report file, its name and its lines *)

Lemma digit_value_digit (n : nat) : digit_value (digit n) = (n mod 10)%nat.
Proof.
  unfold digit_value, digit. pose proof (Nat.mod_upper_bound n 10) as Hlt.
  rewrite nat_ascii_embedding by lia. lia.
Qed.

Lemma decimal_digits_4 (n : nat) :
  (n < 10000)%nat ->
  (1000 * ((n / 1000) mod 10) + 100 * ((n / 100) mod 10)
   + 10 * ((n / 10) mod 10) + n mod 10)%nat = n.
Proof.
  intros H.
  pose proof (Nat.div_mod_eq n 10) as E1.
  pose proof (Nat.div_mod_eq (n / 10) 10) as E2.
  pose proof (Nat.div_mod_eq (n / 100) 10) as E3.
  pose proof (Nat.div_mod_eq (n / 1000) 10) as E4.
  assert (D2 : (n / 100 = n / 10 / 10)%nat)
    by (rewrite Nat.Div0.div_div; reflexivity).
  assert (D3 : (n / 1000 = n / 100 / 10)%nat)
    by (rewrite Nat.Div0.div_div; reflexivity).
  assert (D4 : (n / 1000 / 10 = 0)%nat).
  { rewrite Nat.Div0.div_div. apply Nat.div_small. exact H. }
  rewrite <- D2 in E2. rewrite <- D3 in E3. rewrite D4 in E4. lia.
Qed.

Lemma decimal_digits_2 (n : nat) :
  (n < 100)%nat -> (10 * ((n / 10) mod 10) + n mod 10)%nat = n.
Proof.
  intros H.
  pose proof (Nat.div_mod_eq n 10) as E1.
  assert (D : ((n / 10) mod 10 = n / 10)%nat).
  { apply Nat.mod_small. apply Nat.Div0.div_lt_upper_bound. lia. }
  rewrite D. lia.
Qed.

(** The date stamp spells the clock's year, month and day. *)
Lemma parse_strftime_Ymd (d : datetime) :
  (year d < 10000)%nat -> (month d < 100)%nat -> (day d < 100)%nat ->
  parse_Ymd (strftime_Ymd d) = Some (year d, month d, day d).
Proof.
  intros Hy Hm Hd. pose proof (strftime_Ymd_shape d) as Hshape.
  unfold strftime_Ymd, pad4, pad2 in *.
  rewrite !append_cons, !append_nil_l in *.
  cbv beta iota delta [parse_Ymd]. rewrite Hshape.
  rewrite !digit_value_digit.
  rewrite (decimal_digits_4 _ Hy), (decimal_digits_2 _ Hm),
    (decimal_digits_2 _ Hd).
  reflexivity.
Qed.

(** C2, as the code has it. With at least one title, and the platform
    letting the report be created and written in full,
    [write_game_titles] puts a file at
    [os.path.join(directory, "{console_name}_{YYYY-MM-DD}.txt")], where
    the stamp spells the clock's year, month and day; for a console
    name that does not start with [/] that is the directory, a
    separator and the file name. Its text is the header line
    [Console: {console_name}], the warning line, an empty line and
    then the titles in their order, every one closed by a newline.
    When neither the console name nor a title holds a line break, the
    file read back line by line is exactly these 3 + N lines. *)
Theorem write_game_titles_report (env : os_env)
    (directory console_name : string) (game_titles : list string)
    (s : extractor) :
  game_titles <> [] ->
  env_write env (report_file_path env directory console_name) = None ->
  let file_name :=
    console_name +:+ "_" +:+ strftime_Ymd (env_now env) +:+ ".txt" in
  let file_path := os_path_join directory file_name in
  let report_lines :=
    ("Console: " +:+ console_name) :: warning_line console_name
      :: "" :: game_titles in
  let s' := write_game_titles env directory console_name game_titles s in
  is_iso_date (strftime_Ymd (env_now env)) = true
  /\ ((year (env_now env) < 10000)%nat -> (month (env_now env) < 100)%nat ->
      (day (env_now env) < 100)%nat ->
      parse_Ymd (strftime_Ymd (env_now env))
      = Some (year (env_now env), month (env_now env), day (env_now env)))
  /\ (PyStr.startswith console_name "/" = false ->
      exists sep, (sep = "" \/ sep = "/")
                  /\ file_path = directory +:+ sep +:+ file_name)
  /\ disk s' = <[file_path := PyStr.unlines report_lines]> (disk s)
  /\ disk s' !! file_path = Some (PyStr.unlines report_lines)
  /\ PyStr.unlines report_lines
     = PyStr.write_all
         (("Console: " +:+ console_name +:+ PyStr.nl)
            :: (warning_line console_name +:+ PyStr.nl +:+ PyStr.nl)
            :: List.map (fun title => title +:+ PyStr.nl) game_titles)
  /\ (PyStr.single_line console_name = true ->
      forallb PyStr.single_line game_titles = true ->
      PyStr.lines (PyStr.unlines report_lines) = report_lines
      /\ length (PyStr.lines (PyStr.unlines report_lines))
         = (3 + length game_titles)%nat).
Proof.
  intros Hne Hw file_name file_path report_lines s'.
  assert (Hdisk : disk s' = <[file_path := PyStr.unlines report_lines]> (disk s)).
  { subst s'. rewrite (write_game_titles_written _ _ _ _ _ Hne Hw).
    cbn [disk set_open_buttons_enabled set_output_files log_message set_disk].
    rewrite report_text_unlines. reflexivity. }
  split; [apply strftime_Ymd_shape|].
  split; [apply parse_strftime_Ymd|].
  split.
  { intros Hc. apply os_path_join_inside.
    apply startswith_slash_file_name, Hc. }
  split; [exact Hdisk|].
  split; [rewrite Hdisk; apply lookup_insert_eq|].
  split; [symmetry; apply report_text_unlines|].
  intros Hc Hts.
  assert (Hl : PyStr.lines (PyStr.unlines report_lines) = report_lines).
  { apply lines_unlines. subst report_lines. cbn [forallb].
    rewrite Hts. unfold warning_line. rewrite !single_line_app, Hc.
    reflexivity. }
  split; [exact Hl|]. rewrite Hl. reflexivity.
Qed.

(** The NES report of the sample platform, read back line by line. *)
Lemma write_game_titles_report_nes :
  ["Mega Man.zip"] <> ([] : list string)
  /\ env_write Sample.env (report_file_path Sample.env "/roms/nes" "NES") = None
  /\ PyStr.lines
       <$> disk (write_game_titles Sample.env "/roms/nes" "NES"
                   ["Mega Man.zip"] init)
           !! "/roms/nes/NES_2024-05-18.txt"
     = Some ["Console: NES";
             "Warning: We do not know if the list below is actual NES game titles or not. Please double-check by yourself.";
             ""; "Mega Man.zip"]
  /\ parse_Ymd "2024-05-18" = Some (2024, 5, 18)%nat.
Proof.
  assert (Hne : ["Mega Man.zip"] <> ([] : list string)) by discriminate.
  split; [exact Hne|]. split; [reflexivity|].
  destruct (write_game_titles_report Sample.env "/roms/nes" "NES"
              ["Mega Man.zip"] init Hne eq_refl)
    as (_ & _ & _ & _ & Hfile & _ & Hlines).
  split; [|reflexivity].
  change "/roms/nes/NES_2024-05-18.txt"
    with (os_path_join "/roms/nes"
            ("NES" +:+ "_" +:+ strftime_Ymd (env_now Sample.env) +:+ ".txt")).
  rewrite Hfile. cbn [fmap option_fmap option_map].
  destruct (Hlines eq_refl eq_refl) as [-> _]. reflexivity.
Defined.

(** One title that holds a line break makes a report of five lines, not
    of 3 + 1; and where the platform refuses the file, a non-empty
    title list creates none. *)
Lemma report_lines_not_three_plus_titles :
  let titles := ["a" +:+ PyStr.nl +:+ "b.zip"] in
  let s' := write_game_titles Sample.env "/roms/nes" "NES" titles init in
  let refused :=
    write_game_titles Sample.env "/roms/readonly" "NES" ["Sonic.zip"] init in
  length titles = 1%nat
  /\ (exists text,
        disk s' !! "/roms/nes/NES_2024-05-18.txt" = Some text
        /\ length (PyStr.lines text) = 5%nat
        /\ length (PyStr.lines text) <> (3 + length titles)%nat)
  /\ disk refused = ∅.
Proof.
  cbv zeta. split; [reflexivity|]. split; [|reflexivity].
  eexists. split; [reflexivity|]. split; [reflexivity|].
  vm_compute. discriminate.
Qed.

(** ** The run goes through the whole registry *)

Lemma last_report_of_writer (env : os_env) (items : list (string * string))
    (item : string * string) :
  In item items -> entry_writes env item = true ->
  is_Some (last_report env items (fst item)).
Proof.
  induction items as [|it rest IH]; intros Hin Hw; [destruct Hin|].
  cbn [last_report].
  destruct (last_report env rest (fst item)) as [p|] eqn:E;
    [eexists; reflexivity|].
  destruct Hin as [->|Hin].
  - rewrite String.eqb_refl, Hw. eexists. reflexivity.
  - destruct (IH Hin Hw) as [p Hp]. discriminate.
Qed.

Lemma written_line_logged (env : os_env) (item : string * string) :
  entry_writes env item = true ->
  entry_events env item
  = [Processing (fst item) (snd item);
     AttemptWrite (report_file_path env (snd item) (fst item));
     TitlesWritten (report_file_path env (snd item) (fst item))].
Proof.
  unfold entry_writes, entry_events, write_succeeds, scan_events, titles_of,
    write_events.
  destruct (os_path_exists env (snd item)); [|discriminate].
  destruct (env_scandir env (snd item)) as [e|ents]; [discriminate|].
  destruct (List.filter is_zip (List.map d_name ents)); [discriminate|].
  destruct (env_write env (report_file_path env (snd item) (fst item)));
    [discriminate|reflexivity].
Qed.

(** C6. A run that has started goes through every registry entry, in
    registry order, whatever happens to the earlier ones: what it logs
    between its two debug lines and its completion line is, entry after
    entry, what the round of that entry logs (its [Processing] line,
    then the lines of its existence test, scan and report); the records
    and the files afterwards are those the last writing rounds leave;
    an entry that can be written is written and recorded wherever it
    stands in the registry. Completion is logged once, as the last
    line, and the bar is then set to 100. With two entries, the first
    directory missing and the second listable, holding titles and
    writable: one error line (for the first), the report of the second
    on disk and on record, the bar at 100. *)
Theorem start_process_attempts_every_entry (env : os_env) (s : extractor) :
  start_guard s = false ->
  let s' := start_process env s in
  let emitted := flat_map (entry_events env) (console_entries s) in
  log_text s'
  = log_text s
    ++ [DebugStart (selected_console s); DebugEntries (console_entries s)]
    ++ emitted ++ [ProcessCompleted]
  /\ List.filter is_processing emitted = processing_of (console_entries s)
  /\ List.filter is_completed emitted = []
  /\ progress_value s' = 100%Q
  /\ (forall console_name,
        output_files s' !! console_name
        = match last_report env (console_entries s) console_name with
          | Some p => Some p
          | None => output_files s !! console_name
          end)
  /\ (forall path,
        disk s' !! path
        = match last_written env (console_entries s) path with
          | Some text => Some text
          | None => disk s !! path
          end)
  /\ (forall before item after,
        console_entries s = before ++ item :: after ->
        emitted
        = flat_map (entry_events env) before
          ++ entry_events env item ++ flat_map (entry_events env) after
        /\ (entry_writes env item = true ->
            let p := report_file_path env (snd item) (fst item) in
            entry_events env item
            = [Processing (fst item) (snd item); AttemptWrite p;
               TitlesWritten p]
            /\ is_Some (disk s' !! p)
            /\ is_Some (output_files s' !! fst item)))
  /\ (forall c1 d1 c2 d2,
        console_entries s = [(c1, d1); (c2, d2)] ->
        os_path_exists env d1 = false ->
        os_path_exists env d2 = true ->
        (exists ents, env_scandir env d2 = inr ents) ->
        titles_of env d2 <> [] ->
        env_write env (report_file_path env d2 c2) = None ->
        let p := report_file_path env d2 c2 in
        emitted = [Processing c1 d1; ErrDirectoryMissing d1;
                   Processing c2 d2; AttemptWrite p; TitlesWritten p]
        /\ length (List.filter is_error emitted) = 1%nat
        /\ disk s' !! p
           = Some (PyStr.write_all (report_chunks c2 (titles_of env d2)))
        /\ output_files s' !! c2 = Some p).
Proof.
  intros Hg s' emitted. subst s' emitted.
  pose proof (start_process_disk_lookup env s) as Hdisk.
  pose proof (start_process_output_lookup env s) as Hout.
  rewrite Hg in Hdisk, Hout.
  split; [apply start_process_started_log, Hg|].
  split; [apply run_events_processing|].
  split; [apply run_events_processing|].
  split; [rewrite (start_process_started _ _ Hg); reflexivity|].
  split; [exact Hout|]. split; [exact Hdisk|]. split.
  - intros before item after He. rewrite He. split.
    + rewrite flat_map_app. cbn [flat_map]. reflexivity.
    + intros Hw. cbv zeta.
      assert (Hin : In item (before ++ item :: after))
        by (apply in_or_app; right; left; reflexivity).
      split; [apply written_line_logged, Hw|]. split.
      * rewrite Hdisk, He.
        destruct (last_written_of_entry env _ item Hin Hw) as [t ->].
        eexists. reflexivity.
      * rewrite Hout, He.
        destruct (last_report_of_writer env _ item Hin Hw) as [p ->].
        eexists. reflexivity.
  - intros c1 d1 c2 d2 He H1 H2 [ents Hscan] Hts Hw p. subst p.
    assert (Hw2 : entry_writes env (c2, d2) = true).
    { unfold entry_writes, write_succeeds. cbn [fst snd]. rewrite H2, Hw.
      destruct (titles_of env d2); [congruence|reflexivity]. }
    assert (Hev :
      flat_map (entry_events env) (console_entries s)
      = [Processing c1 d1; ErrDirectoryMissing d1; Processing c2 d2;
         AttemptWrite (report_file_path env d2 c2);
         TitlesWritten (report_file_path env d2 c2)]).
    { rewrite He. cbn [flat_map].
      rewrite (written_line_logged env (c2, d2) Hw2).
      unfold entry_events. cbn [fst snd]. rewrite H1. reflexivity. }
    split; [exact Hev|]. split; [rewrite Hev; reflexivity|].
    rewrite Hdisk, Hout, He. cbn [last_written last_report fst snd].
    rewrite String.eqb_refl, String.eqb_refl, Hw2,
      (entry_writes_leaves env (c2, d2) Hw2).
    split; reflexivity.
Qed.

(** The run over a removed directory and then the NES directory. *)
Lemma start_process_attempts_every_entry_sample :
  start_guard Sample.removed_then_valid = false
  /\ List.filter is_processing
       (log_text (start_process Sample.env Sample.removed_then_valid))
     = [Processing "Atari 2600" "/roms/gone";
        Processing "Nintendo Entertainment System (NES)" "/roms/nes"]
  /\ List.filter is_error
       (log_text (start_process Sample.env Sample.removed_then_valid))
     = [ErrDirectoryMissing "/roms/gone"]
  /\ progress_value (start_process Sample.env Sample.removed_then_valid)
     = 100%Q.
Proof.
  split; [reflexivity|].
  destruct (start_process_attempts_every_entry Sample.env
              Sample.removed_then_valid eq_refl)
    as (Hlog & _ & _ & Hprog & _ & _ & _ & Hscenario).
  destruct (Hscenario "Atari 2600" "/roms/gone"
              "Nintendo Entertainment System (NES)" "/roms/nes"
              eq_refl eq_refl eq_refl
              (ex_intro _ Sample.nes_dir eq_refl)
              ltac:(discriminate) eq_refl) as (Hem & _).
  rewrite Hlog, Hem. split; [reflexivity|]. split; [reflexivity|exact Hprog].
Defined.

(** ** Consoles selected without a directory *)

Lemma count_existing_app (env : os_env) (a b : list (string * string)) :
  count_existing env (a ++ b)
  = (count_existing env a + count_existing env b)%nat.
Proof.
  unfold count_existing. rewrite List.filter_app, length_app. reflexivity.
Qed.

Lemma count_existing_with_empty_directory (env : os_env)
    (before after : list (string * string)) (c : string) :
  (count_existing env (before ++ (c, "") :: after)
   < length (before ++ (c, "") :: after))%nat.
Proof.
  rewrite count_existing_app, count_existing_cons, length_app.
  cbn [snd os_path_exists PyStr.truthy andb length].
  pose proof (count_existing_le env before).
  pose proof (count_existing_le env after). lia.
Qed.

Lemma fraction_below_100 (c n : nat) :
  (c < n)%nat ->
  (inject_Z (Z.of_nat c) * (100 / inject_Z (Z.of_nat n)) < 100)%Q.
Proof.
  intros Hc.
  assert (Hn : (0 < inject_Z (Z.of_nat n))%Q) by (unfold Qlt; cbn; lia).
  unfold Qdiv. rewrite Qmult_assoc. apply Qlt_shift_div_r; [exact Hn|].
  unfold Qlt. cbn. lia.
Qed.

Lemma start_process_after_entries (env : os_env) (s : extractor) :
  start_guard s = false ->
  start_process env s
  = set_progress_value 100%Q
      (log_message ProcessCompleted
         (after_entries env (length (console_entries s)) s)).
Proof.
  intros Hg. rewrite (start_process_started _ _ Hg). unfold after_entries.
  cbn [console_entries set_progress_value log_message].
  rewrite firstn_all. reflexivity.
Qed.

(** C10. Selecting a console that is not yet in the registry appends an
    entry mapping it to the empty string; selecting one that is there
    leaves the registry as it is, directory included. In a run such an
    entry is one of the [total_consoles] the loop divides by, and when
    the loop reaches it, it logs that the directory does not exist and
    goes on to the next entry without scanning, writing or moving the
    bar: so the loop of such a run ends with the bar below 100, which
    only the closing assignment sets. *)
Theorem select_console_registers_empty_directory (console_name : string)
    (s : extractor) :
  PyStr.truthy console_name = true ->
  let s' := select_console console_name s in
  selected_console s' = Some console_name
  /\ (Dict.get console_name (console_entries s) = None ->
      console_entries s' = console_entries s ++ [(console_name, "")]
      /\ length (console_entries s') = S (length (console_entries s)))
  /\ (forall directory,
        Dict.get console_name (console_entries s) = Some directory ->
        console_entries s' = console_entries s
        /\ Dict.get console_name (console_entries s') = Some directory)
  /\ (forall env total s0 c,
        let s1 := process_entry env total s0 (c, "") in
        log_text s1 = log_text s0 ++ [Processing c ""; ErrDirectoryMissing ""]
        /\ progress_value s1 = progress_value s0
        /\ disk s1 = disk s0 /\ output_files s1 = output_files s0)
  /\ (forall env st before c after,
        start_guard st = false ->
        console_entries st = before ++ (c, "") :: after ->
        let st' := start_process env st in
        let total_consoles := (length before + 1 + length after)%nat in
        let loop_end :=
          process_entries env total_consoles
            (before ++ (c, "") :: after) (run_start st) in
        st' = set_progress_value 100%Q (log_message ProcessCompleted loop_end)
        /\ loop_end = after_entries env (length (console_entries st)) st
        /\ log_text st'
           = log_text st
             ++ [DebugStart (selected_console st);
                 DebugEntries (console_entries st)]
             ++ flat_map (entry_events env) before
             ++ [Processing c ""; ErrDirectoryMissing ""]
             ++ flat_map (entry_events env) after
             ++ [ProcessCompleted]
        /\ (count_existing env (console_entries st) < total_consoles)%nat
        /\ (progress_value loop_end < 100)%Q
        /\ progress_value st' = 100%Q).
Proof.
  intros Ht s'. subst s'.
  split; [unfold select_console; rewrite Ht; reflexivity|].
  rewrite (select_console_entries _ _ Ht).
  split; [|split; [|split]].
  - intros Hget. rewrite Hget. cbn [from_option id].
    rewrite (Dict_facts.set_absent _ _ _ Hget). split; [reflexivity|].
    rewrite length_app. cbn [length]. lia.
  - intros directory Hget. rewrite Hget. cbn [from_option id].
    rewrite (Dict_facts.set_same _ _ _ Hget). split; [reflexivity|exact Hget].
  - intros env total s0 c. cbv zeta. rewrite process_entry_empty_directory.
    cbn. rewrite <- app_assoc. repeat split.
  - intros env st before c after Hg He. cbv zeta.
    assert (Hlen : length (console_entries st)
                   = (length before + 1 + length after)%nat).
    { rewrite He, length_app. cbn [length]. lia. }
    assert (Hloop :
      process_entries env (length before + 1 + length after)
        (before ++ (c, "") :: after) (run_start st)
      = after_entries env (length (console_entries st)) st).
    { unfold after_entries, run_start.
      cbn [console_entries set_progress_value log_message].
      rewrite firstn_all, Hlen, He. reflexivity. }
    pose proof (count_existing_with_empty_directory env before after c)
      as Hcount.
    rewrite <- He in Hcount. rewrite Hlen in Hcount.
    split; [rewrite Hloop; apply start_process_after_entries, Hg|].
    split; [exact Hloop|]. split.
    { rewrite (start_process_started_log _ _ Hg), He, flat_map_app.
      cbn [flat_map]. unfold entry_events at 2.
      cbn [fst snd os_path_exists PyStr.truthy andb].
      rewrite <- !app_assoc. reflexivity. }
    split; [exact Hcount|]. split.
    * rewrite Hloop, after_entries_progress, firstn_all, Hlen.
      apply fraction_below_100, Hcount.
    * rewrite (start_process_started _ _ Hg). reflexivity.
Qed.

(** Selecting Atari 2600 in a fresh window, and again Xbox once it has
    its directory; then the run over the two. *)
Lemma select_console_registers_empty_directory_sample :
  PyStr.truthy "Atari 2600" = true
  /\ console_entries (select_console "Atari 2600" init) = [("Atari 2600", "")]
  /\ console_entries (select_console "Xbox" Sample.two_consoles)
     = [("Atari 2600", ""); ("Xbox", "/roms/xbox")]
  /\ List.filter is_error
       (log_text (start_process Sample.env Sample.two_consoles))
     = [ErrDirectoryMissing ""].
Proof.
  split; [reflexivity|].
  destruct (select_console_registers_empty_directory "Atari 2600" init eq_refl)
    as (_ & Hnew & _).
  destruct (select_console_registers_empty_directory "Xbox"
              Sample.two_consoles eq_refl) as (_ & _ & Hold & _ & Hrun).
  split; [destruct (Hnew eq_refl) as [-> _]; reflexivity|].
  split; [destruct (Hold "/roms/xbox" eq_refl) as [-> _]; reflexivity|].
  destruct (Hrun Sample.env Sample.two_consoles [] "Atari 2600"
              [("Xbox", "/roms/xbox")] eq_refl eq_refl) as (_ & _ & -> & _).
  reflexivity.
Defined.
